(** * MedAgentBench environment: turn controller, executor and grading dispatch

    A shallow embedding of [environments/med_agent_bench/med_agent_bench.py]:
    the completion check [is_completed], the executor [env_response], the
    grading dispatcher [eval] and the reward function
    [medagent_bench_reward_func].

    Python dictionaries (the conversation state, the messages, the backend
    response, the case data) are finite maps with string keys; a function
    that mutates the state dictionary returns the new dictionary; a
    function that can raise returns a [result]; the network and the JSON
    parser are oracles bound in a Section, and every GET request issued is
    recorded in a log next to the outcome. *)

From Stdlib Require Import String Ascii List ZArith Bool Lia.
From stdpp Require Import base option list strings pretty gmap fin_maps relations.

Local Open Scope string_scope.
Local Open Scope list_scope.

(** ** Python strings

    A [str] is modelled as a [string] whose characters are the code points
    below 256. *)
Module Str.

(** [str.isspace] on one character of the range 0..255: the code points
    9-13, 28-32, 133 and 160. *)
Definition isspace (c : ascii) : bool :=
  let n := nat_of_ascii c in
  (((9 <=? n) && (n <=? 13)) || ((28 <=? n) && (n <=? 32))
   || (n =? 133) || (n =? 160))%nat.

(** [s.lstrip()] *)
Fixpoint lstrip (s : string) : string :=
  match s with
  | EmptyString => EmptyString
  | String c r => if isspace c then lstrip r else s
  end.

(** [s.rstrip()] *)
Fixpoint rstrip (s : string) : string :=
  match s with
  | EmptyString => EmptyString
  | String c r =>
      match rstrip r with
      | EmptyString => if isspace c then EmptyString else String c EmptyString
      | r' => String c r'
      end
  end.

(** [s.strip()] *)
Definition strip (s : string) : string := rstrip (lstrip s).

(** [s.startswith(p)] *)
Definition startswith (s p : string) : bool := String.prefix p s.

(** [s[n:]] *)
Fixpoint drop (n : nat) (s : string) : string :=
  match n, s with
  | O, _ => s
  | S _, EmptyString => EmptyString
  | S k, String _ r => drop k r
  end.

(** [s[:-1]] *)
Fixpoint removelast (s : string) : string :=
  match s with
  | EmptyString => EmptyString
  | String c EmptyString => EmptyString
  | String c r => String c (removelast r)
  end.

(** [new.join(s)] read as a string of characters: [new] before every
    character and at the end, which is what [s.replace("", new)] gives. *)
Fixpoint around_each (new s : string) : string :=
  match s with
  | EmptyString => new
  | String c r => new +:+ String c (around_each new r)
  end.

(** The scan of [s.replace(old, new)] for a non-empty [old]: left to
    right, at a position where [old] starts [new] is emitted and the
    scan resumes after the occurrence; [skip] counts the characters of
    the current occurrence still to pass over. *)
Fixpoint replace_scan (old new : string) (skip : nat) (s : string) : string :=
  match s with
  | EmptyString => EmptyString
  | String c r =>
      match skip with
      | S k => replace_scan old new k r
      | O =>
          if String.prefix old s
          then new +:+ replace_scan old new (String.length old - 1) r
          else String c (replace_scan old new 0 r)
      end
  end.

(** [s.replace(old, new)] *)
Definition replace (old new s : string) : string :=
  match old with
  | EmptyString => around_each new s
  | _ => replace_scan old new 0 s
  end.

(** [s.split(sep)] for a one-character separator: the list of the
    fields, never empty. *)
Fixpoint split (sep : ascii) (s : string) : list string :=
  match s with
  | EmptyString => [EmptyString]
  | String c r =>
      if Ascii.eqb c sep then EmptyString :: split sep r
      else match split sep r with
           | [] => [String c EmptyString]
           | f :: fs => String c f :: fs
           end
  end.

(** [sep.join(parts)] *)
Fixpoint join (sep : string) (parts : list string) : string :=
  match parts with
  | [] => EmptyString
  | [p] => p
  | p :: ps => p +:+ sep +:+ join sep ps
  end.

(** [p in s]: [p] occurs in [s] as a substring. *)
Fixpoint occurs (p s : string) : bool :=
  String.prefix p s ||
  match s with
  | EmptyString => false
  | String _ r => occurs p r
  end.

(** [s.endswith(p)] *)
Fixpoint endswith (s p : string) : bool :=
  String.eqb s p ||
  match s with
  | EmptyString => false
  | String _ r => endswith r p
  end.

End Str.

Definition nl : string := String "010"%char EmptyString.
Definition fence : string := "```".
Definition fence_tool : string := "```tool_code".

(** ** Python values, exceptions and dictionaries *)

(** The values stored in the dictionaries the code handles. *)
Inductive pyval : Type :=
| PyNone
| PyBool (b : bool)
| PyInt (z : Z)
| PyStr (s : string).

#[global] Instance pyval_eq_dec : EqDecision pyval.
Proof. solve_decision. Defined.

(** [str(v)], which is what an f-string field renders. *)
Definition py_str (v : pyval) : string :=
  match v with
  | PyNone => "None"
  | PyBool true => "True"
  | PyBool false => "False"
  | PyInt z => pretty z
  | PyStr s => s
  end.

(** Truth value of [v] in a condition. *)
Definition truthy (v : pyval) : bool :=
  match v with
  | PyNone => false
  | PyBool b => b
  | PyInt z => negb (Z.eqb z 0)
  | PyStr s => negb (String.eqb s "")
  end.

(** Instances of Python's [Exception], the class every [except Exception]
    of the module catches. *)
Inductive exn : Type :=
| KeyError (key : string)
| AttributeError (name : string)
| Exception (msg : string).

(** A computation that returns or raises. *)
Inductive result (A : Type) : Type :=
| Ok (a : A)
| Raise (e : exn).
Arguments Ok {A} a.
Arguments Raise {A} e.

#[global] Instance result_ret : MRet result := fun A a => Ok a.
#[global] Instance result_bind : MBind result := fun A B k m =>
  match m with
  | Ok a => k a
  | Raise e => Raise e
  end.

(** [try: body / except Exception: handler] *)
Definition try_except {A : Type} (body : result A) (handler : exn → result A) : result A :=
  match body with
  | Ok a => Ok a
  | Raise e => handler e
  end.

(** The conversation state ([State], a dict) and a chat message (a dict
    with the keys [role] and [content]). *)
Abbreviation State := (gmap string pyval).
Abbreviation Message := (gmap string string).

(** [d[key]] *)
Definition getitem {V : Type} (d : gmap string V) (key : string) : result V :=
  match d !! key with
  | Some v => Ok v
  | None => Raise (KeyError key)
  end.

(** The dict literal [{"role": "user", "content": content}]. *)
Definition user_message (content : string) : Message :=
  <["role" := "user"]> (<["content" := content]> ∅).

Definition assistant_message (content : string) : Message :=
  <["role" := "assistant"]> (<["content" := content]> ∅).

(** ** The turn controller *)

(** [content.replace('```tool_code', '').replace('```', '').strip()] applied
    to [last_msg.get("content", "").strip()]. *)
Definition clean (content : string) : string :=
  Str.strip (Str.replace fence "" (Str.replace fence_tool "" (Str.strip content))).

(** [last_msg.get("content", "")] *)
Definition get_content (last_msg : Message) : string :=
  default "" (last_msg !! "content").

(** [state.get("status") in ["completed", "invalid_action"]] *)
Definition status_terminal (state : State) : bool :=
  bool_decide (state !! "status" = Some (PyStr "completed"))
  || bool_decide (state !! "status" = Some (PyStr "invalid_action")).

(** [MedAgentBenchEnv.is_completed]: the returned flag and the state
    dictionary after the call. *)
Definition is_completed (messages : list Message) (state : State) : bool * State :=
  match messages with
  | [] => (false, state)
  | _ :: _ =>
      if status_terminal state then (true, state)
      else
        match last messages with
        | Some last_msg =>
            if bool_decide (last_msg !! "role" = Some "assistant") then
              let content := clean (get_content last_msg) in
              if Str.startswith content "FINISH(" then
                let answer := Str.removelast (Str.drop (String.length "FINISH(") content) in
                (true, <["status" := PyStr "completed"]>
                         (<["final_answer" := PyStr answer]> state))
              else if negb (Str.startswith content "GET" || Str.startswith content "POST") then
                (true, <["status" := PyStr "invalid_action"]> state)
              else (false, state)
            else (false, state)
        | None => (false, state)
        end
  end.

(** ** The action executor *)

Definition finish_reminder : string :=
  "Please call FINISH if you have got answers for all the questions and finished all the requested tasks".

(** What a call of [env_response] does: the GET requests it sent, in
    order, and what it returned or raised. *)
Record env_result : Type := EnvResult {
  requests : list string;
  outcome : result (list Message * State)
}.

Section Executor.

(** [utils.send_get_request]: the response dictionary for a URL. *)
Variable send_get_request : string → gmap string pyval.

(** [json.loads]: the parsed value, or the exception raised. *)
Context {JSON : Type}.
Variable json_loads : string → result JSON.

(** The GET branch once the response is there. *)
Definition get_observation (get_res : gmap string pyval) (state : State)
  : result (list Message * State) :=
  match get_res !! "data" with
  | Some data =>
      Ok ([user_message ("Here is the response from the GET request:" +:+ nl +:+ py_str data
                         +:+ ". " +:+ finish_reminder)], state)
  | None =>
      error ← getitem get_res "error";
      Ok ([user_message ("Error in sending the GET request: " +:+ py_str error)], state)
  end.

(** The POST branch: [json.loads] of the lines after the first, under
    [try ... except Exception]. *)
Definition post_observation (content : string) (state : State)
  : result (list Message * State) :=
  try_except
    (payload ← json_loads (Str.join nl (tail (Str.split "010" content)));
     Ok ([user_message ("POST request accepted and executed successfully. " +:+ finish_reminder)],
         state))
    (fun _ => Ok ([user_message "Invalid POST request format"], state)).

(** [MedAgentBenchEnv.env_response] *)
Definition env_response (messages : list Message) (state : State) : env_result :=
  match last messages with
  | None => EnvResult [] (Ok ([], state))
  | Some last_msg =>
      if negb (bool_decide (last_msg !! "role" = Some "assistant"))
      then EnvResult [] (Ok ([], state))
      else
        let content := clean (get_content last_msg) in
        if Str.startswith content "GET" then
          let url := Str.strip (Str.drop 3 content) +:+ "&_format=json" in
          EnvResult [url] (get_observation (send_get_request url) state)
        else if Str.startswith content "POST" then
          EnvResult [] (post_observation content state)
        else EnvResult [] (Ok ([], state))
  end.

End Executor.

(** ** The grading dispatcher *)

(** The local class [Message] of the reward function. *)
Record HistoryMessage : Type := HistoryMessage_init {
  hm_role : string;
  hm_content : string
}.

(** The local class [Results]. *)
Record Results : Type := mkResults {
  history : list HistoryMessage;
  result_ : pyval
}.

(** The loop of [Results.__init__] over the completion: assistant turns
    become [agent] entries, user turns stay, other roles are skipped;
    [msg["content"]] raises [KeyError] when the key is missing. *)
Fixpoint replay (completion : list Message) : result (list HistoryMessage) :=
  match completion with
  | [] => Ok []
  | msg :: rest =>
      if bool_decide (msg !! "role" = Some "assistant") then
        content ← getitem msg "content";
        hist ← replay rest;
        Ok (HistoryMessage_init "agent" content :: hist)
      else if bool_decide (msg !! "role" = Some "user") then
        content ← getitem msg "content";
        hist ← replay rest;
        Ok (HistoryMessage_init "user" content :: hist)
      else replay rest
  end.

(** [Results(completion, final_answer)] *)
Definition Results_init (completion : list Message) (final_answer : pyval) : result Results :=
  hist ← replay completion;
  Ok (mkResults hist final_answer).

(** A grading routine of [refsol]: [(case_data, results, fhir_api_base)]
    to a value, or it raises. *)
Abbreviation Grader := (gmap string pyval → Results → string → result pyval).

(** [case_data['id'].split('_')[0]] *)
Definition task_id_of (case_data : gmap string pyval) : result string :=
  id ← getitem case_data "id";
  match id with
  | PyStr s => Ok (hd "" (Str.split "_" s))
  | _ => Raise (AttributeError "split")
  end.

Section Grading.

(** [getattr(refsol, name)]: the routine registered under [name], if any. *)
Variable refsol : string → option Grader.

(** [utils.verify_fhir_server] *)
Variable verify_fhir_server : string → result bool.

Variable fhir_api_base : string.

(** [getattr(refsol, task_id)] *)
Definition getattr_refsol (task_id : string) : result Grader :=
  match refsol task_id with
  | Some grader_func => Ok grader_func
  | None => Raise (AttributeError task_id)
  end.

(** [eval]: [True] when the routine returns exactly [True], [False] when
    it raises, and [None] (the function falls off its end) otherwise. *)
Definition eval (case_data : gmap string pyval) (results : Results) : result pyval :=
  task_id ← task_id_of case_data;
  grader_func ← getattr_refsol task_id;
  try_except
    (verdict ← grader_func case_data results fhir_api_base;
     if bool_decide (verdict = PyBool true) then Ok (PyBool true) else Ok PyNone)
    (fun _ => Ok (PyBool false)).

(** [medagent_bench_reward_func] *)
Definition medagent_bench_reward_func
    (completion : list Message) (info : gmap string pyval) (state : State) : result Z :=
  let case_data := info in
  if negb (bool_decide (state !! "status" = Some (PyStr "completed"))) then Ok 0%Z
  else
    match state !! "final_answer" with
    | None => Ok 0%Z
    | Some final_answer =>
        results ← Results_init completion final_answer;
        try_except
          (reachable ← verify_fhir_server fhir_api_base;
           if negb reachable then Raise (Exception "FHIR server is unreachable.")
           else
             is_correct ← eval case_data results;
             Ok (if truthy is_correct then 1%Z else 0%Z))
          (fun _ => Ok 0%Z)
    end.

End Grading.

(** ** Conversations

    A conversation is a history and a state dictionary, driven by the
    caller of the environment: a message is appended to the history, the
    completion check runs, or the executor runs and its observations are
    appended. The history only grows. *)
Section Conversation.

Variable send_get_request : string → gmap string pyval.
Context {JSON : Type}.
Variable json_loads : string → result JSON.

Inductive step : list Message * State → list Message * State → Prop :=
| step_message messages state msg :
    step (messages, state) (messages ++ [msg], state)
| step_check messages state :
    step (messages, state) (messages, (is_completed messages state).2)
| step_env messages state obs state' :
    outcome (env_response send_get_request json_loads messages state) = Ok (obs, state') →
    step (messages, state) (messages ++ obs, state').

(** A conversation starts with a state that is not terminal and holds no
    final answer. *)
Definition initial (c : list Message * State) : Prop :=
  status_terminal c.2 = false ∧ c.2 !! "final_answer" = None.

End Conversation.

(** Along a conversation: a terminal status comes with a non-empty
    history, and the final answer is there exactly when the status is
    [completed]. *)
Definition conversation_inv (c : list Message * State) : Prop :=
  (status_terminal c.2 = true → c.1 ≠ [])
  ∧ (is_Some (c.2 !! "final_answer") ↔ c.2 !! "status" = Some (PyStr "completed")).

(** A verdict is justified by a message of the history: [completed] by an
    assistant message whose cleaned text starts with [FINISH(] and gives
    the stored final answer, [invalid_action] by an assistant message whose
    cleaned text starts with none of the three prefixes. *)
Definition verdict_justified (c : list Message * State) : Prop :=
  (c.2 !! "status" = Some (PyStr "completed") →
     ∃ m : Message,
       m ∈ c.1 ∧ m !! "role" = Some "assistant"
       ∧ Str.startswith (clean (get_content m)) "FINISH(" = true
       ∧ c.2 !! "final_answer"
         = Some (PyStr (Str.removelast (Str.drop 7 (clean (get_content m))))))
  ∧ (c.2 !! "status" = Some (PyStr "invalid_action") →
       ∃ m : Message,
         m ∈ c.1 ∧ m !! "role" = Some "assistant"
         ∧ Str.startswith (clean (get_content m)) "FINISH(" = false
         ∧ Str.startswith (clean (get_content m)) "GET" = false
         ∧ Str.startswith (clean (get_content m)) "POST" = false).

(** ** Sample collaborators, for concrete runs *)

(** A backend that answers every request with [{"data": "X"}]. *)
Definition backend_data (url : string) : gmap string pyval :=
  {[ "data" := PyStr "X" ]}.

(** A backend that answers every request with [{"error": "E"}]. *)
Definition backend_error (url : string) : gmap string pyval :=
  {[ "error" := PyStr "E" ]}.

(** A backend that breaks the contract: [{"status_code": 204}]. *)
Definition backend_neither (url : string) : gmap string pyval :=
  {[ "status_code" := PyInt 204 ]}.

(** A parser that knows two documents, [[1]] and [{}]. *)
Definition json_loads_sample (text : string) : result nat :=
  if String.eqb text "[1]" then Ok 1
  else if String.eqb text "{}" then Ok 0
  else Raise (Exception "JSONDecodeError").

(** A registry with one routine, [task3], that accepts the answer [[1, 2]]
    and raises on an empty history. *)
Definition refsol_sample (name : string) : option Grader :=
  if String.eqb name "task3" then
    Some (fun case_data results base =>
            match history results with
            | [] => Raise (Exception "empty history")
            | _ => Ok (PyBool (bool_decide (result_ results = PyStr "[1, 2]")))
            end)
  else if String.eqb name "task4" then
    Some (fun case_data results base => Ok (PyInt 1))
  else None.

Definition verify_ok (base : string) : result bool := Ok true.

(** A server that does not answer the health check. *)
Definition verify_down (base : string) : result bool := Ok false.

(** ** The initial prompt *)

(** [MED_AGENT_BENCH_PROMPT.format(api_base=..., functions=..., context=...,
    question=...)]: the lines of the template, with the four fields filled
    in, joined by newlines. *)
Definition MED_AGENT_BENCH_PROMPT (api_base functions context question : string) : string :=
  Str.join nl
    ["You are an expert in using FHIR functions to assist medical professionals. You are given a question and a set of possible functions. Based on the question, you will need to make one or more function/tool calls to achieve the purpose.";
     "";
     "1. If you decide to invoke a GET function, you MUST put it in the format of";
     "GET url?param_name1=param_value1&param_name2=param_value2...";
     "";
     "2. If you decide to invoke a POST function, you MUST put it in the format of";
     "POST url";
     "[your payload data in JSON format]";
     "";
     "3. If you have got answers for all the questions and finished all the requested tasks, you MUST call to finish the conversation in the format of (make sure the list is JSON loadable.)";
     "FINISH([answer1, answer2, ...])";
     "";
     "Your response must be in the format of one of the three cases, and you can call only one function each time. You SHOULD NOT include any other text in the response.";
     "";
     "Here is a list of functions in JSON format that you can invoke. Note that you should use " +:+ api_base +:+ " as the api_base.";
     functions;
     "";
     "Context: " +:+ context;
     "Question: " +:+ question].

Section Prompt.

(** The function catalog and [json.dumps(funcs, indent=2)]. *)
Context {Funcs : Type}.
Variable json_dumps : Funcs → string.

(** [generate_prompt_messages]: [case_data.get(key, "")] fills the context
    and the question. *)
Definition generate_prompt_messages
    (case_data : gmap string pyval) (fhir_api_base : string) (funcs : Funcs) : list Message :=
  let prompt_content :=
    MED_AGENT_BENCH_PROMPT fhir_api_base (json_dumps funcs)
      (py_str (default (PyStr "") (case_data !! "context")))
      (py_str (default (PyStr "") (case_data !! "instruction"))) in
  [user_message prompt_content].

End Prompt.

(** ** Task filtering *)

(** [filter_by_tasks] of [load_environment]: the row is kept when the text
    of its id before the first underscore is one of [tasks]. *)
Definition filter_by_tasks (tasks : list string) (x : gmap string pyval) : result bool :=
  task_id ← task_id_of x;
  Ok (bool_decide (task_id ∈ tasks)).

(** A catalog rendering for concrete runs. *)
Definition json_dumps_sample (funcs : list string) : string :=
  "[" +:+ Str.join ", " funcs +:+ "]".

(** ** The words of the specification, for comparison *)

(** The text of [s] before the first [sep] (all of [s] when there is none). *)
Fixpoint before_first (sep : ascii) (s : string) : string :=
  match s with
  | EmptyString => EmptyString
  | String c r => if Ascii.eqb c sep then EmptyString else String c (before_first sep r)
  end.

(** The text of [s] after the first [sep] (empty when there is none). *)
Fixpoint after_first (sep : ascii) (s : string) : string :=
  match s with
  | EmptyString => EmptyString
  | String c r => if Ascii.eqb c sep then r else after_first sep r
  end.

(** * Properties *)

(** ** Strings *)

Section StrFacts.
Import Str.

Lemma prefix_empty s : String.prefix "" s = true.
Proof. by destruct s. Qed.

Lemma prefix_cons a p b s :
  String.prefix (String a p) (String b s) = bool_decide (a = b) && String.prefix p s.
Proof.
  simpl. destruct (ascii_dec a b) as [->|Hne].
  - by rewrite bool_decide_eq_true_2.
  - by rewrite bool_decide_eq_false_2.
Qed.

Lemma prefix_app_l p q s :
  String.prefix (p +:+ q) s = true → String.prefix p s = true.
Proof.
  revert s. induction p as [|a p IH]; intros s H.
  - apply prefix_empty.
  - destruct s as [|b s]; [done|].
    change (String a p +:+ q) with (String a (p +:+ q)) in H.
    rewrite prefix_cons in H |- *.
    apply andb_true_iff in H as [Hab Hp].
    rewrite Hab. simpl. by apply IH.
Qed.

Lemma prefix_app_r p a b :
  String.prefix p a = true → String.prefix p (a +:+ b) = true.
Proof.
  revert a. induction p as [|c p IH]; intros a H.
  - apply prefix_empty.
  - destruct a as [|d a]; [done|].
    change (String d a +:+ b) with (String d (a +:+ b)).
    rewrite prefix_cons in H |- *.
    apply andb_true_iff in H as [Hcd Hp].
    rewrite Hcd. simpl. by apply IH.
Qed.

Lemma occurs_cons p c s : occurs p s = true → occurs p (String c s) = true.
Proof. intros H. simpl. rewrite H. apply orb_true_r. Qed.

Lemma occurs_unfold p s :
  occurs p s = String.prefix p s || match s with
                                    | EmptyString => false
                                    | String _ r => occurs p r
                                    end.
Proof. by destruct s. Qed.

Lemma occurs_app_l p q s : occurs (p +:+ q) s = true → occurs p s = true.
Proof.
  induction s as [|c s IH]; rewrite (occurs_unfold p), (occurs_unfold (p +:+ q));
    intros H; apply orb_true_iff in H as [H|H]; apply orb_true_iff.
  - left. by eapply prefix_app_l.
  - done.
  - left. by eapply prefix_app_l.
  - right. by apply IH.
Qed.

Lemma occurs_app_r p a b : occurs p a = true → occurs p (a +:+ b) = true.
Proof.
  induction a as [|c a IH]; intros H.
  - rewrite occurs_unfold in H. rewrite orb_false_r in H.
    destruct p; [|done]. rewrite occurs_unfold, prefix_empty. done.
  - change (String c a +:+ b) with (String c (a +:+ b)).
    rewrite occurs_unfold in H. rewrite occurs_unfold.
    apply orb_true_iff in H as [H|H]; apply orb_true_iff.
    + left. by apply (prefix_app_r _ (String c a)).
    + right. by apply IH.
Qed.

Lemma occurs_lstrip p s : occurs p (lstrip s) = true → occurs p s = true.
Proof.
  induction s as [|c s IH]; [done|]. cbn [lstrip].
  destruct (isspace c); [|done].
  intros H. apply occurs_cons. by apply IH.
Qed.

Lemma rstrip_prefix s : ∃ t, s = rstrip s +:+ t.
Proof.
  induction s as [|c s [t IH]]; [by exists ""|].
  cbn [rstrip]. destruct (rstrip s) as [|d r] eqn:E.
  - destruct (isspace c).
    + by exists (String c s).
    + exists t. simpl. by rewrite IH at 1.
  - exists t. simpl. by rewrite IH at 1.
Qed.

Lemma occurs_rstrip p s : occurs p (rstrip s) = true → occurs p s = true.
Proof.
  intros H. destruct (rstrip_prefix s) as [t Ht]. rewrite Ht.
  by apply occurs_app_r.
Qed.

Lemma occurs_strip p s : occurs p (strip s) = true → occurs p s = true.
Proof. intros H. by apply occurs_lstrip, occurs_rstrip. Qed.

Lemma absent_strip p s : occurs p s = false → occurs p (strip s) = false.
Proof.
  intros H. destruct (occurs p (strip s)) eqn:E; [|done].
  apply occurs_strip in E. congruence.
Qed.

Lemma scan_fence_head1 s :
  String.prefix "`" (replace_scan fence "" 0 s) = true → String.prefix "`" s = true.
Proof.
  destruct s as [|c r]; [done|]. cbn [replace_scan].
  destruct (String.prefix fence (String c r)) eqn:E.
  - intros _. by apply (prefix_app_l "`" "``").
  - rewrite !prefix_cons, !prefix_empty. done.
Qed.

Lemma scan_fence_head2 s :
  String.prefix "``" (replace_scan fence "" 0 s) = true → String.prefix "``" s = true.
Proof.
  destruct s as [|c r]; [done|]. cbn [replace_scan].
  destruct (String.prefix fence (String c r)) eqn:E.
  - intros _. by apply (prefix_app_l "``" "`").
  - rewrite !(prefix_cons "`" "`"). intros H.
    apply andb_true_iff in H as [-> H]. by apply scan_fence_head1 in H as ->.
Qed.

(** One scan for the fence leaves no fence behind: a run of back-quotes
    is cut down to its length modulo three. *)
Lemma scan_fence_free k s : occurs fence (replace_scan fence "" k s) = false.
Proof.
  revert k. induction s as [|c r IH]; intros k; [by destruct k|].
  cbn [replace_scan]. destruct k as [|k]; [|apply IH].
  destruct (String.prefix fence (String c r)) eqn:E; [apply IH|].
  rewrite occurs_unfold, IH, orb_false_r.
  destruct (String.prefix fence (String c (replace_scan fence "" 0 r))) eqn:E'; [|done].
  unfold fence in E, E'. rewrite prefix_cons in E, E'.
  apply andb_true_iff in E' as [Hc H]. rewrite Hc in E. simpl in E.
  apply scan_fence_head2 in H. congruence.
Qed.

Lemma scan_absent old new s : occurs old s = false → replace_scan old new 0 s = s.
Proof.
  induction s as [|c r IH]; [done|]. rewrite occurs_unfold. intros H.
  apply orb_false_iff in H as [Hp Hr]. cbn [replace_scan]. rewrite Hp.
  by rewrite IH.
Qed.

Lemma replace_absent old new s : occurs old s = false → replace old new s = s.
Proof.
  destruct old as [|a old].
  - rewrite occurs_unfold, prefix_empty. done.
  - apply scan_absent.
Qed.

Lemma replace_fence_free s : occurs fence (replace fence "" s) = false.
Proof. apply scan_fence_free. Qed.

Lemma lstrip_head s :
  match lstrip s with
  | EmptyString => True
  | String c _ => isspace c = false
  end.
Proof.
  induction s as [|c r IH]; [done|]. cbn [lstrip].
  destruct (isspace c) eqn:E; [apply IH|done].
Qed.

Lemma rstrip_idem s : rstrip (rstrip s) = rstrip s.
Proof.
  induction s as [|c r IH]; [done|]. cbn [rstrip].
  destruct (rstrip r) as [|d r'] eqn:E.
  - destruct (isspace c) eqn:Ec; [done|]. cbn [rstrip]. by rewrite Ec.
  - cbn [rstrip] in IH |- *. by rewrite IH.
Qed.

Lemma rstrip_head c r : isspace c = false → ∃ r', rstrip (String c r) = String c r'.
Proof.
  intros Hc. cbn [rstrip]. destruct (rstrip r) as [|d r'].
  - rewrite Hc. by eexists.
  - by eexists.
Qed.

Lemma lstrip_strip s : lstrip (strip s) = strip s.
Proof.
  unfold strip. pose proof (lstrip_head s) as H.
  destruct (lstrip s) as [|c r]; [done|].
  destruct (rstrip_head c r H) as [r' ->]. cbn [lstrip]. by rewrite H.
Qed.

Lemma strip_idem s : strip (strip s) = strip s.
Proof. unfold strip at 1. rewrite lstrip_strip. apply rstrip_idem. Qed.

Lemma split_cons sep s : ∃ f fs, split sep s = f :: fs.
Proof.
  destruct s as [|c r]; [by eexists _, _|]. cbn [split].
  destruct (Ascii.eqb c sep); [by eexists _, _|].
  destruct (split sep r); by eexists _, _.
Qed.

(** The first field of a split is the text before the first separator. *)
Lemma split_hd sep s : hd "" (split sep s) = before_first sep s.
Proof.
  induction s as [|c r IH]; [done|]. cbn [split before_first].
  destruct (Ascii.eqb c sep); [done|].
  destruct (split_cons sep r) as (f & fs & E). rewrite E in IH |- *.
  simpl in *. by rewrite IH.
Qed.

Lemma ascii_eqb_true c d : Ascii.eqb c d = true → c = d.
Proof. apply Ascii.eqb_eq. Qed.

Lemma join_cons2 sep p q qs :
  join sep (p :: q :: qs) = p +:+ sep +:+ join sep (q :: qs).
Proof. done. Qed.

Lemma join_head sep c f fs :
  join sep (String c f :: fs) = String c (join sep (f :: fs)).
Proof. by destruct fs. Qed.

Lemma join_split sep s : join (String sep "") (split sep s) = s.
Proof.
  induction s as [|c r IH]; [done|]. cbn [split].
  destruct (split_cons sep r) as (f & fs & E). rewrite E in IH |- *.
  destruct (Ascii.eqb c sep) eqn:Ec.
  - apply ascii_eqb_true in Ec as ->. rewrite join_cons2, IH. done.
  - by rewrite join_head, IH.
Qed.

(** Joining the fields after the first gives the text after the first
    separator. *)
Lemma join_split_tail sep s :
  join (String sep "") (tail (split sep s)) = after_first sep s.
Proof.
  induction s as [|c r IH]; [done|]. cbn [split after_first].
  destruct (Ascii.eqb c sep) eqn:E.
  - simpl. apply join_split.
  - destruct (split_cons sep r) as (f & fs & E'). rewrite E' in IH |- *.
    simpl in *. apply IH.
Qed.

End StrFacts.

(** ** Fence stripping *)

Lemma clean_fence_free content : Str.occurs fence (clean content) = false.
Proof. unfold clean. apply absent_strip, replace_fence_free. Qed.

Lemma clean_tool_free content : Str.occurs fence_tool (clean content) = false.
Proof.
  destruct (Str.occurs fence_tool (clean content)) eqn:E; [|done].
  apply (occurs_app_l fence "tool_code") in E. by rewrite clean_fence_free in E.
Qed.

Lemma clean_strip content : Str.strip (clean content) = clean content.
Proof. unfold clean. apply strip_idem. Qed.

Lemma clean_idem content : clean (clean content) = clean content.
Proof.
  unfold clean at 1. rewrite clean_strip.
  rewrite (replace_absent fence_tool) by apply clean_tool_free.
  rewrite (replace_absent fence) by apply clean_fence_free.
  apply clean_strip.
Qed.
(** ** The completion check and the executor, call by call *)

Lemma is_completed_snoc h (m : Message) (s : State) :
  is_completed (h ++ [m]) s = is_completed [m] s.
Proof.
  unfold is_completed. destruct (h ++ [m]) as [|a l] eqn:E; [by destruct h|].
  by rewrite <- E, last_snoc.
Qed.

Lemma is_completed_terminal h (s : State) :
  h ≠ [] → status_terminal s = true → is_completed h s = (true, s).
Proof. intros Hh Hs. unfold is_completed. destruct h; [done|]. by rewrite Hs. Qed.

Lemma is_completed_empty (s : State) : is_completed [] s = (false, s).
Proof. done. Qed.

(** What a completion check can do to the state: nothing, or, from a
    state that is not terminal, the two writes of FINISH or the one write
    of an invalid action. *)
Lemma is_completed_cases h (s : State) :
  (is_completed h s).2 = s
  ∨ (status_terminal s = false ∧ h ≠ [] ∧
     ∃ answer, is_completed h s =
       (true, <["status" := PyStr "completed"]> (<["final_answer" := PyStr answer]> s)))
  ∨ (status_terminal s = false ∧ h ≠ [] ∧
     is_completed h s = (true, <["status" := PyStr "invalid_action"]> s)).
Proof.
  unfold is_completed. destruct h as [|a l]; [by left|].
  destruct (status_terminal s) eqn:Hs; [by left|].
  destruct (last (a :: l)) as [m|]; [|by left].
  case_bool_decide; [|by left].
  destruct (Str.startswith _ "FINISH(").
  - right; left. repeat split; [done|]. by eexists.
  - destruct (negb _); [|by left]. right; right. done.
Qed.

Lemma startswith_get_not_finish c :
  Str.startswith c "GET" = true → Str.startswith c "FINISH(" = false.
Proof.
  unfold Str.startswith. destruct c as [|a r]; [done|].
  rewrite !prefix_cons. intros H. apply andb_true_iff in H as [Ha _].
  apply bool_decide_eq_true in Ha as <-. done.
Qed.

Lemma startswith_post_not_finish c :
  Str.startswith c "POST" = true → Str.startswith c "FINISH(" = false.
Proof.
  unfold Str.startswith. destruct c as [|a r]; [done|].
  rewrite !prefix_cons. intros H. apply andb_true_iff in H as [Ha _].
  apply bool_decide_eq_true in Ha as <-. done.
Qed.

Lemma startswith_post_not_get c :
  Str.startswith c "POST" = true → Str.startswith c "GET" = false.
Proof.
  unfold Str.startswith. destruct c as [|a r]; [done|].
  rewrite !prefix_cons. intros H. apply andb_true_iff in H as [Ha _].
  apply bool_decide_eq_true in Ha as <-. done.
Qed.

Lemma append_empty_r s : s +:+ "" = s.
Proof.
  induction s as [|c s IH]; [done|].
  change (String c s +:+ "") with (String c (s +:+ "")). by rewrite IH.
Qed.

Lemma append_assoc a b c : (a +:+ b) +:+ c = a +:+ (b +:+ c).
Proof.
  induction a as [|x a IH]; [done|].
  change (String x (a +:+ b) +:+ c = String x (a +:+ (b +:+ c))).
  change (String x ((a +:+ b) +:+ c) = String x (a +:+ (b +:+ c))). by rewrite IH.
Qed.

Lemma occurs_middle a p b : Str.occurs p (a +:+ p +:+ b) = true.
Proof.
  induction a as [|c a IH].
  - change ("" +:+ p +:+ b) with (p +:+ b).
    rewrite occurs_unfold, (prefix_app_r p p b); [done|].
    clear. induction p as [|c p IH]; [done|]. rewrite prefix_cons, IH.
    by rewrite bool_decide_eq_true_2.
  - change (String c a +:+ p +:+ b) with (String c (a +:+ p +:+ b)).
    by apply occurs_cons.
Qed.

Lemma endswith_app a b : Str.endswith (a +:+ b) b = true.
Proof.
  induction a as [|c a IH].
  - change ("" +:+ b) with b. destruct b; simpl; [done|].
    by rewrite Ascii.eqb_refl, String.eqb_refl.
  - change (String c a +:+ b) with (String c (a +:+ b)). cbn [Str.endswith].
    rewrite IH. apply orb_true_r.
Qed.

Section ExecutorFacts.

Variable send_get_request : string → gmap string pyval.
Context {JSON : Type}.
Variable json_loads : string → result JSON.

Local Abbreviation turn := (step send_get_request json_loads).

(** The executor hands the state dictionary back as it got it. *)
Lemma env_response_state h (s : State) obs s' :
  outcome (env_response send_get_request json_loads h s) = Ok (obs, s') → s' = s.
Proof.
  unfold env_response.
  destruct (last h) as [m|]; [|by intros [= _ ->]].
  destruct (negb _); [by intros [= _ ->]|].
  destruct (Str.startswith _ "GET").
  - cbn [outcome]. unfold get_observation.
    destruct (_ !! "data"); [by intros [= _ ->]|].
    unfold getitem. destruct (_ !! "error"); [by intros [= _ ->]|done].
  - destruct (Str.startswith _ "POST"); [|by intros [= _ ->]].
    cbn [outcome]. unfold post_observation.
    destruct (json_loads _); by intros [= _ ->].
Qed.

Lemma status_terminal_false (s : State) :
  status_terminal s = false →
  s !! "status" ≠ Some (PyStr "completed") ∧ s !! "status" ≠ Some (PyStr "invalid_action").
Proof.
  unfold status_terminal. intros H. apply orb_false_iff in H as [H1 H2].
  by apply bool_decide_eq_false in H1, H2.
Qed.

Lemma conversation_inv_initial c : initial c → conversation_inv c.
Proof.
  intros [Ht Hf]. split; [congruence|]. rewrite Hf.
  apply status_terminal_false in Ht as [Ht _]. split; [by intros [? ?]|done].
Qed.

Lemma conversation_inv_step c c' : conversation_inv c → turn c c' → conversation_inv c'.
Proof.
  unfold conversation_inv.
  intros [Hne Hfa] Hstep. destruct Hstep as [h s m|h s|h s obs s' Hout]; cbn [fst snd] in *.
  - split; [by destruct h|done].
  - destruct (is_completed_cases h s) as [E|[(Ht & Hh & a & E)|(Ht & Hh & E)]];
      rewrite E; cbn [fst snd]; [done| |].
    + split; [done|]. rewrite lookup_insert_ne by done. rewrite !lookup_insert_eq.
      split; [done|by eexists].
    + split; [done|]. rewrite lookup_insert_ne by done. rewrite lookup_insert_eq.
      rewrite Hfa. apply status_terminal_false in Ht as [Ht _]. split; [done|congruence].
  - apply env_response_state in Hout as ->. split; [|done].
    intros Ht. specialize (Hne Ht). by destruct h.
Qed.

Lemma conversation_inv_rtc c0 c : initial c0 → rtc turn c0 c → conversation_inv c.
Proof.
  intros H0 Hrtc. apply conversation_inv_initial in H0.
  induction Hrtc as [|x y z Hxy _ IH]; [done|].
  apply IH. by eapply conversation_inv_step.
Qed.

(** One step of a conversation and the status. *)
Lemma step_status c c' :
  turn c c' →
  (status_terminal c.2 = true → c'.2 = c.2)
  ∧ (c'.2 !! "status" = c.2 !! "status"
     ∨ (status_terminal c.2 = false ∧ c'.2 !! "status" = Some (PyStr "completed"))
     ∨ (status_terminal c.2 = false ∧ c'.2 !! "status" = Some (PyStr "invalid_action"))).
Proof.
  intros Hstep. destruct Hstep as [h s m|h s|h s obs s' Hout]; cbn [fst snd].
  - split; [done|by left].
  - destruct (is_completed_cases h s) as [E|[(Ht & Hh & a & E)|(Ht & Hh & E)]];
      rewrite E; cbn [fst snd].
    + split; [done|by left].
    + split; [congruence|]. right; left. by rewrite lookup_insert_eq.
    + split; [congruence|]. right; right. by rewrite lookup_insert_eq.
  - apply env_response_state in Hout as ->. split; [done|by left].
Qed.

(** C1: in every conversation the status moves only from a non-terminal
    status to itself, to [completed] or to [invalid_action]; once it is
    [completed] or [invalid_action] no step changes the state and the
    completion check returns [True] with the state untouched, whatever
    messages follow; and the state holds a final answer if and only if
    its status is [completed]. *)
Theorem status_transitions c0 c :
  initial c0 → rtc turn c0 c →
  (is_Some (c.2 !! "final_answer") ↔ c.2 !! "status" = Some (PyStr "completed"))
  ∧ (status_terminal c.2 = true →
       ∀ more, is_completed (c.1 ++ more) c.2 = (true, c.2))
  ∧ (∀ c', turn c c' →
       (status_terminal c.2 = true → c'.2 = c.2)
       ∧ (c'.2 !! "status" = c.2 !! "status"
          ∨ (status_terminal c.2 = false ∧ c'.2 !! "status" = Some (PyStr "completed"))
          ∨ (status_terminal c.2 = false
             ∧ c'.2 !! "status" = Some (PyStr "invalid_action")))).
Proof.
  intros H0 Hrtc. destruct (conversation_inv_rtc _ _ H0 Hrtc) as [Hne Hfa].
  split; [done|]. split.
  - intros Ht more. apply is_completed_terminal; [|done].
    specialize (Hne Ht). by destruct (c.1).
  - apply step_status.
Qed.

Lemma is_completed_assistant h (m : Message) (s : State) :
  m !! "role" = Some "assistant" → status_terminal s = false →
  is_completed (h ++ [m]) s =
    let content := clean (get_content m) in
    if Str.startswith content "FINISH(" then
      (true, <["status" := PyStr "completed"]>
               (<["final_answer" := PyStr (Str.removelast (Str.drop 7 content))]> s))
    else if negb (Str.startswith content "GET" || Str.startswith content "POST") then
      (true, <["status" := PyStr "invalid_action"]> s)
    else (false, s).
Proof.
  intros Hr Hs. rewrite is_completed_snoc. unfold is_completed. rewrite Hs.
  cbn [last]. by rewrite bool_decide_eq_true_2.
Qed.

Lemma env_response_assistant h (m : Message) (s : State) :
  m !! "role" = Some "assistant" →
  env_response send_get_request json_loads (h ++ [m]) s =
    let content := clean (get_content m) in
    if Str.startswith content "GET" then
      let url := Str.strip (Str.drop 3 content) +:+ "&_format=json" in
      EnvResult [url] (get_observation (send_get_request url) s)
    else if Str.startswith content "POST" then
      EnvResult [] (post_observation json_loads content s)
    else EnvResult [] (Ok ([], s)).
Proof.
  intros Hr. unfold env_response. rewrite last_snoc.
  by rewrite bool_decide_eq_true_2.
Qed.

(** C2, as the code has it: an assistant utterance whose cleaned text
    starts with [FINISH(], processed in a non-terminal state, ends the
    conversation with status [completed], and the stored final answer is
    the cleaned text without its first seven characters and without its
    last one, whatever that text is; for the utterance [FINISH([1, 2])]
    the stored text is [[1, 2]], brackets included. *)
Theorem finish_captures_answer :
  (∀ h (m : Message) (s : State),
     m !! "role" = Some "assistant" → status_terminal s = false →
     Str.startswith (clean (get_content m)) "FINISH(" = true →
     is_completed (h ++ [m]) s =
       (true, <["status" := PyStr "completed"]>
                (<["final_answer" :=
                     PyStr (Str.removelast (Str.drop 7 (clean (get_content m))))]> s)))
  ∧ (∀ h (s : State),
       status_terminal s = false →
       is_completed (h ++ [assistant_message "FINISH([1, 2])"]) s =
         (true, <["status" := PyStr "completed"]>
                  (<["final_answer" := PyStr "[1, 2]"]> s))).
Proof.
  split.
  - intros h m s Hr Hs Hf. rewrite is_completed_assistant by done.
    cbn zeta. by rewrite Hf.
  - intros h s Hs. by rewrite is_completed_assistant.
Qed.

(** C3: an assistant utterance whose cleaned text starts with none of
    [FINISH(], [GET], [POST], processed in a non-terminal state, sets the
    status to [invalid_action] and ends the conversation, and the executor
    has no observation for it: it returns the empty list, sends nothing
    and leaves the state as it is. *)
Theorem invalid_action_terminal h (m : Message) (s : State) :
  m !! "role" = Some "assistant" → status_terminal s = false →
  Str.startswith (clean (get_content m)) "FINISH(" = false →
  Str.startswith (clean (get_content m)) "GET" = false →
  Str.startswith (clean (get_content m)) "POST" = false →
  is_completed (h ++ [m]) s = (true, <["status" := PyStr "invalid_action"]> s)
  ∧ status_terminal (is_completed (h ++ [m]) s).2 = true
  ∧ ∀ s' : State, env_response send_get_request json_loads (h ++ [m]) s' = EnvResult [] (Ok ([], s')).
Proof.
  intros Hr Hs Hf Hg Hp. rewrite is_completed_assistant by done. cbn zeta.
  rewrite Hf, Hg, Hp. cbn [negb orb snd]. split; [done|]. split.
  - unfold status_terminal. rewrite lookup_insert_eq. done.
  - intros s'. rewrite env_response_assistant by done. cbn zeta.
    by rewrite Hg, Hp.
Qed.

(** C4: for an assistant utterance whose cleaned text starts with [GET],
    in a non-terminal state: the completion check leaves the state as it
    is and lets the conversation go on; the executor sends exactly one
    request, the trimmed text after [GET] followed by [&_format=json];
    when the response has a [data] field the single observation is a
    user message that contains the payload verbatim, and when it has no
    [data] but an [error] field the observation reports that error; in
    both cases the state is returned unchanged. *)
Theorem get_observation_and_status h (m : Message) (s : State) :
  m !! "role" = Some "assistant" → status_terminal s = false →
  Str.startswith (clean (get_content m)) "GET" = true →
  let url := Str.strip (Str.drop 3 (clean (get_content m))) +:+ "&_format=json" in
  let get_res := send_get_request url in
  is_completed (h ++ [m]) s = (false, s)
  ∧ requests (env_response send_get_request json_loads (h ++ [m]) s) = [url]
  ∧ (∀ data, get_res !! "data" = Some data →
       ∃ text,
         outcome (env_response send_get_request json_loads (h ++ [m]) s) = Ok ([user_message text], s)
         ∧ text = "Here is the response from the GET request:" +:+ nl +:+ py_str data
                  +:+ ". " +:+ finish_reminder
         ∧ Str.occurs (py_str data) text = true)
  ∧ (∀ error, get_res !! "data" = None → get_res !! "error" = Some error →
       ∃ text,
         outcome (env_response send_get_request json_loads (h ++ [m]) s) = Ok ([user_message text], s)
         ∧ text = "Error in sending the GET request: " +:+ py_str error
         ∧ Str.occurs (py_str error) text = true).
Proof.
  intros Hr Hs Hg url get_res. split; [|split; [|split]].
  - rewrite is_completed_assistant by done. cbn zeta.
    by rewrite (startswith_get_not_finish _ Hg), Hg.
  - rewrite env_response_assistant by done. cbn zeta. by rewrite Hg.
  - intros data Hd. rewrite env_response_assistant by done. cbn zeta. rewrite Hg.
    cbn [outcome]. unfold get_observation. fold url get_res. rewrite Hd.
    eexists. split; [done|]. split; [done|].
    apply (occurs_middle ("Here is the response from the GET request:" +:+ nl)).
  - intros error Hd He. rewrite env_response_assistant by done. cbn zeta. rewrite Hg.
    cbn [outcome]. unfold get_observation, getitem. fold url get_res. rewrite Hd, He.
    eexists. split; [done|]. split; [done|].
    pose proof (occurs_middle "Error in sending the GET request: " (py_str error) "") as H.
    by rewrite append_empty_r in H.
Qed.

(** C5: for an assistant utterance whose cleaned text starts with [POST],
    in a non-terminal state: the completion check leaves the state as it
    is and lets the conversation go on; the executor sends no request;
    when [json.loads] accepts the text after the first line the
    observation is the acceptance message, and when it raises the
    observation says that the POST format is invalid; in both cases the
    state is returned unchanged. *)
Theorem post_observation_and_status h (m : Message) (s : State) :
  m !! "role" = Some "assistant" → status_terminal s = false →
  Str.startswith (clean (get_content m)) "POST" = true →
  let body := after_first "010" (clean (get_content m)) in
  is_completed (h ++ [m]) s = (false, s)
  ∧ requests (env_response send_get_request json_loads (h ++ [m]) s) = []
  ∧ (∀ payload, json_loads body = Ok payload →
       outcome (env_response send_get_request json_loads (h ++ [m]) s) =
         Ok ([user_message ("POST request accepted and executed successfully. "
                            +:+ finish_reminder)], s))
  ∧ (∀ e, json_loads body = Raise e →
       outcome (env_response send_get_request json_loads (h ++ [m]) s) =
         Ok ([user_message "Invalid POST request format"], s)).
Proof.
  intros Hr Hs Hp body.
  assert (Hrun : env_response send_get_request json_loads (h ++ [m]) s =
                 EnvResult [] (post_observation json_loads (clean (get_content m)) s)).
  { rewrite env_response_assistant by done. cbn zeta.
    by rewrite (startswith_post_not_get _ Hp), Hp. }
  split; [|split; [|split]].
  - rewrite is_completed_assistant by done. cbn zeta.
    rewrite (startswith_post_not_finish _ Hp), Hp. by rewrite orb_true_r.
  - by rewrite Hrun.
  - intros payload Hj. rewrite Hrun. cbn [outcome]. unfold post_observation.
    unfold nl. rewrite join_split_tail. fold body. by rewrite Hj.
  - intros e Hj. rewrite Hrun. cbn [outcome]. unfold post_observation.
    unfold nl. rewrite join_split_tail. fold body. by rewrite Hj.
Qed.

(** C7, as the code has it: the observation of a GET whose response has
    a [data] field and the observation of a POST whose body parses both
    end with the reminder to call FINISH; the observation of a GET
    failure is the error text with nothing after it, and the observation
    of a malformed POST is the fixed text [Invalid POST request format],
    which carries no reminder. *)
Theorem reminder_only_on_success h (m : Message) (s : State) :
  m !! "role" = Some "assistant" →
  let content := clean (get_content m) in
  let get_res := send_get_request (Str.strip (Str.drop 3 content) +:+ "&_format=json") in
  let body := after_first "010" content in
  (Str.startswith content "GET" = true →
     (∀ data, get_res !! "data" = Some data →
        ∃ text, outcome (env_response send_get_request json_loads (h ++ [m]) s) = Ok ([user_message text], s)
                ∧ Str.endswith text finish_reminder = true)
     ∧ (∀ error, get_res !! "data" = None → get_res !! "error" = Some error →
          outcome (env_response send_get_request json_loads (h ++ [m]) s) =
            Ok ([user_message ("Error in sending the GET request: " +:+ py_str error)], s)))
  ∧ (Str.startswith content "POST" = true →
       (∀ payload, json_loads body = Ok payload →
          ∃ text, outcome (env_response send_get_request json_loads (h ++ [m]) s) = Ok ([user_message text], s)
                  ∧ Str.endswith text finish_reminder = true)
       ∧ (∀ e, json_loads body = Raise e →
            outcome (env_response send_get_request json_loads (h ++ [m]) s) =
              Ok ([user_message "Invalid POST request format"], s)
            ∧ Str.endswith "Invalid POST request format" finish_reminder = false)).
Proof.
  intros Hr content get_res body. split.
  - intros Hg. split.
    + intros data Hd. rewrite env_response_assistant by done. cbn zeta. fold content.
      rewrite Hg. cbn [outcome]. unfold get_observation. fold get_res. rewrite Hd.
      eexists. split; [done|].
      rewrite <- !append_assoc. apply endswith_app.
    + intros error Hd He. rewrite env_response_assistant by done. cbn zeta. fold content.
      rewrite Hg. cbn [outcome]. unfold get_observation, getitem. fold get_res.
      by rewrite Hd, He.
  - intros Hp.
    assert (Hrun : env_response send_get_request json_loads (h ++ [m]) s = EnvResult [] (post_observation json_loads content s)).
    { rewrite env_response_assistant by done. cbn zeta. fold content.
      by rewrite (startswith_post_not_get _ Hp), Hp. }
    rewrite Hrun. cbn [outcome]. unfold post_observation, nl.
    rewrite join_split_tail. fold body. split.
    + intros payload ->. eexists. split; [done|].
      apply (endswith_app "POST request accepted and executed successfully. ").
    + intros e ->. done.
Qed.

(** C8: for an assistant utterance whose cleaned text starts with [GET],
    a response dictionary with neither a [data] nor an [error] key makes
    the executor raise [KeyError('error')] after the request was sent;
    the executor returns if and only if the response has one of the two
    keys. *)
Theorem get_needs_data_or_error h (m : Message) (s : State) :
  m !! "role" = Some "assistant" →
  Str.startswith (clean (get_content m)) "GET" = true →
  let url := Str.strip (Str.drop 3 (clean (get_content m))) +:+ "&_format=json" in
  let get_res := send_get_request url in
  (get_res !! "data" = None → get_res !! "error" = None →
     env_response send_get_request json_loads (h ++ [m]) s = EnvResult [url] (Raise (KeyError "error")))
  ∧ ((∃ r, outcome (env_response send_get_request json_loads (h ++ [m]) s) = Ok r)
     ↔ is_Some (get_res !! "data") ∨ is_Some (get_res !! "error")).
Proof.
  intros Hr Hg url get_res. rewrite env_response_assistant by done. cbn zeta.
  rewrite Hg. fold url get_res. cbn [outcome]. unfold get_observation, getitem.
  split.
  - by intros -> ->.
  - destruct (get_res !! "data") as [d|]; [|destruct (get_res !! "error") as [e|]].
    + split; [by left; eexists|by eexists].
    + split; [by right; eexists|by eexists].
    + split; [by intros [? ?]|].
      intros [[? ?]|[? ?]]; done.
Qed.

(** C9: the cleaned text holds no occurrence of the fence marker and
    none of the [tool_code] marker, wherever they stood in the content,
    and it is trimmed; the completion check and the executor see the
    content only through the cleaned text: replacing the content of the
    latest message by its cleaned text changes neither. *)
Theorem fences_removed_everywhere content h (m : Message) (s : State) :
  Str.occurs fence (clean content) = false
  ∧ Str.occurs fence_tool (clean content) = false
  ∧ Str.strip (clean content) = clean content
  ∧ clean " ```tool_code GET /Pat```ient?id=1 ``` " = "GET /Patient?id=1"
  ∧ is_completed (h ++ [m]) s
    = is_completed (h ++ [<["content" := clean (get_content m)]> m]) s
  ∧ env_response send_get_request json_loads (h ++ [m]) s
    = env_response send_get_request json_loads (h ++ [<["content" := clean (get_content m)]> m]) s.
Proof.
  assert (Hc : get_content (<["content" := clean (get_content m)]> m)
               = clean (get_content m)).
  { unfold get_content at 1. by rewrite lookup_insert_eq. }
  assert (Hrole : (<["content" := clean (get_content m)]> m) !! "role" = m !! "role").
  { by rewrite lookup_insert_ne. }
  split; [apply clean_fence_free|]. split; [apply clean_tool_free|].
  split; [apply clean_strip|]. split; [done|]. split.
  - rewrite !is_completed_snoc. unfold is_completed. cbn [last].
    by rewrite Hrole, Hc, clean_idem.
  - unfold env_response. rewrite !last_snoc.
    by rewrite Hrole, Hc, clean_idem.
Qed.

(** C10: with an empty history, or a latest message whose role is not
    [assistant], the executor returns no observation, sends no request
    and hands the state back unchanged. *)
Theorem no_assistant_no_effect messages (s : State) :
  (messages = [] ∨ ∃ m : Message, last messages = Some m ∧ m !! "role" ≠ Some "assistant") →
  env_response send_get_request json_loads messages s = EnvResult [] (Ok ([], s)).
Proof.
  intros [->|(m & Hl & Hr)]; [done|].
  unfold env_response. rewrite Hl. by rewrite bool_decide_eq_false_2.
Qed.

End ExecutorFacts.

(** ** Grading *)

Section GradingFacts.

Variable refsol : string → option Grader.
Variable verify_fhir_server : string → result bool.
Variable fhir_api_base : string.

Local Abbreviation reward_func :=
  (medagent_bench_reward_func refsol verify_fhir_server fhir_api_base).

(** The reward of a completed conversation whose history replays. *)
Lemma reward_completed completion info (state : State) final_answer results id :
  state !! "status" = Some (PyStr "completed") →
  state !! "final_answer" = Some final_answer →
  Results_init completion final_answer = Ok results →
  info !! "id" = Some (PyStr id) →
  reward_func completion info state =
    Ok (match verify_fhir_server fhir_api_base, refsol (before_first "_" id) with
        | Ok true, Some grader_func =>
            match grader_func info results fhir_api_base with
            | Ok (PyBool true) => 1%Z
            | _ => 0%Z
            end
        | _, _ => 0%Z
        end).
Proof.
  intros Hs Hf Hres Hid. unfold medagent_bench_reward_func.
  rewrite bool_decide_eq_true_2 by done. cbn [negb]. rewrite Hf, Hres.
  unfold mbind, result_bind, try_except.
  destruct (verify_fhir_server fhir_api_base) as [[|]|e]; cbn [negb]; [|done|done].
  unfold eval, task_id_of, getitem, mbind, result_bind, getattr_refsol, try_except.
  rewrite Hid, split_hd.
  destruct (refsol (before_first "_" id)) as [g|]; [|done].
  destruct (g info results fhir_api_base) as [v|e]; [|done].
  case_bool_decide as Hv; [by subst v|].
  destruct v as [|[|]| |]; done.
Qed.

(** C6: for a completed conversation with a stored final answer, whose
    history replays and whose case has an identifier, if the routine
    registered under the text before the first underscore of the
    identifier is missing, raises, or returns anything but [True], the
    reward is 0; the reward function returns 0 or 1 and raises nothing,
    and it returns 1 only when the server answers the health check and
    the routine returns exactly [True]. *)
Theorem grading_failure_is_zero completion info (state : State) final_answer results id :
  state !! "status" = Some (PyStr "completed") →
  state !! "final_answer" = Some final_answer →
  Results_init completion final_answer = Ok results →
  info !! "id" = Some (PyStr id) →
  let task_id := before_first "_" id in
  let reward := reward_func completion info state in
  (refsol task_id = None
   ∨ (∃ grader_func e, refsol task_id = Some grader_func
                       ∧ grader_func info results fhir_api_base = Raise e)
   ∨ (∃ grader_func v, refsol task_id = Some grader_func
                       ∧ grader_func info results fhir_api_base = Ok v
                       ∧ v ≠ PyBool true)
   → reward = Ok 0%Z)
  ∧ (reward = Ok 0%Z ∨ reward = Ok 1%Z)
  ∧ (reward = Ok 1%Z
     ↔ verify_fhir_server fhir_api_base = Ok true
       ∧ ∃ grader_func, refsol task_id = Some grader_func
                        ∧ grader_func info results fhir_api_base = Ok (PyBool true)).
Proof.
  intros Hs Hf Hres Hid task_id reward.
  assert (E := reward_completed _ _ _ _ _ _ Hs Hf Hres Hid).
  fold reward task_id in E. rewrite E. clear E. split; [|split].
  - intros [->|[(g & e & -> & ->)|(g & v & -> & -> & Hv)]].
    + by destruct (verify_fhir_server _) as [[|]|].
    + by destruct (verify_fhir_server _) as [[|]|].
    + destruct (verify_fhir_server _) as [[|]|]; [|done|done].
      destruct v as [|[|]| |]; done.
  - destruct (verify_fhir_server _) as [[|]|]; [|by left|by left].
    destruct (refsol task_id) as [g|]; [|by left].
    destruct (g info results fhir_api_base) as [[|[|]| |]|]; first [by left|by right].
  - split.
    + intros H. destruct (verify_fhir_server _) as [[|]|]; [|done|done].
      destruct (refsol task_id) as [g|]; [|done].
      destruct (g info results fhir_api_base) as [[|[|]| |]|] eqn:Eg; try done.
      split; [done|]. by exists g.
    + by intros [-> (g & -> & ->)].
Qed.

End GradingFacts.

(** * Further properties of the code *)

(** ** More on strings *)

Lemma append_cons c s t : String c s +:+ t = String c (s +:+ t).
Proof. done. Qed.

Lemma append_empty_l t : "" +:+ t = t.
Proof. done. Qed.

Lemma rstrip_snoc s c :
  Str.isspace c = false → Str.rstrip (s +:+ String c "") = s +:+ String c "".
Proof.
  intros Hc. induction s as [|d s IH].
  - change ("" +:+ String c "") with (String c ""). cbn [Str.rstrip]. by rewrite Hc.
  - change (String d s +:+ String c "") with (String d (s +:+ String c "")).
    cbn [Str.rstrip]. rewrite IH. by destruct s.
Qed.

Lemma removelast_snoc s c : Str.removelast (s +:+ String c "") = s.
Proof.
  induction s as [|d s IH]; [done|].
  change (String d s +:+ String c "") with (String d (s +:+ String c "")).
  cbn [Str.removelast]. rewrite IH. by destruct s.
Qed.

Lemma prefix_fence_snoc s c :
  c ≠ "`"%char → String.prefix fence (s +:+ String c "") = String.prefix fence s.
Proof.
  intros Hc. unfold fence.
  destruct s as [|x [|y [|z r]]]; rewrite ?append_cons, ?append_empty_l;
    rewrite ?prefix_cons, ?prefix_empty; cbn [String.prefix];
    repeat case_bool_decide; subst; cbn [andb]; done.
Qed.

Lemma occurs_fence_cons c s :
  c ≠ "`"%char → Str.occurs fence (String c s) = Str.occurs fence s.
Proof.
  intros Hc. rewrite occurs_unfold. unfold fence at 1. rewrite prefix_cons.
  by rewrite (bool_decide_eq_false_2 ("`"%char = c)).
Qed.

Lemma occurs_fence_snoc s c :
  c ≠ "`"%char → Str.occurs fence (s +:+ String c "") = Str.occurs fence s.
Proof.
  intros Hc. induction s as [|d s IH].
  - by rewrite append_empty_l, occurs_fence_cons.
  - rewrite append_cons, (occurs_unfold fence (String d s)),
      (occurs_unfold fence (String d (s +:+ String c ""))), IH.
    by rewrite <- append_cons, prefix_fence_snoc.
Qed.

Lemma after_first_absent sep s :
  Str.occurs (String sep "") s = false → after_first sep s = "".
Proof.
  induction s as [|c r IH]; [done|]. rewrite occurs_unfold, prefix_cons, prefix_empty.
  intros H. apply orb_false_iff in H as [Hc Hr]. rewrite andb_true_r in Hc.
  apply bool_decide_eq_false in Hc. cbn [after_first].
  destruct (Ascii.eqb c sep) eqn:E; [|by apply IH].
  apply ascii_eqb_true in E. congruence.
Qed.

Lemma before_first_absent sep s :
  Str.occurs (String sep "") s = false → before_first sep s = s.
Proof.
  induction s as [|c r IH]; [done|]. rewrite occurs_unfold, prefix_cons, prefix_empty.
  intros H. apply orb_false_iff in H as [Hc Hr]. rewrite andb_true_r in Hc.
  apply bool_decide_eq_false in Hc. cbn [before_first].
  destruct (Ascii.eqb c sep) eqn:E; [|by rewrite IH].
  apply ascii_eqb_true in E. congruence.
Qed.

Lemma before_first_app sep t rest :
  Str.occurs (String sep "") t = false →
  before_first sep (t +:+ String sep rest) = t.
Proof.
  induction t as [|c r IH].
  - intros _. change ("" +:+ String sep rest) with (String sep rest).
    cbn [before_first]. by rewrite Ascii.eqb_refl.
  - rewrite occurs_unfold, prefix_cons, prefix_empty.
    intros H. apply orb_false_iff in H as [Hc Hr]. rewrite andb_true_r in Hc.
    apply bool_decide_eq_false in Hc.
    change (String c r +:+ String sep rest) with (String c (r +:+ String sep rest)).
    cbn [before_first]. destruct (Ascii.eqb c sep) eqn:E; [|by rewrite IH].
    apply ascii_eqb_true in E. congruence.
Qed.

Lemma before_first_free sep s : Str.occurs (String sep "") (before_first sep s) = false.
Proof.
  induction s as [|c r IH]; [done|]. cbn [before_first].
  destruct (Ascii.eqb c sep) eqn:E; [done|].
  rewrite occurs_unfold, prefix_cons, prefix_empty, IH, andb_true_r, orb_false_r.
  apply bool_decide_eq_false. intros ->. by rewrite Ascii.eqb_refl in E.
Qed.

Lemma occurs_app_rr p a b : Str.occurs p b = true → Str.occurs p (a +:+ b) = true.
Proof.
  intros H. induction a as [|c a IH]; [done|].
  change (String c a +:+ b) with (String c (a +:+ b)). by apply occurs_cons.
Qed.

Lemma occurs_refl p : Str.occurs p p = true.
Proof. pose proof (occurs_middle "" p "") as H. by rewrite append_empty_r in H. Qed.

Lemma endswith_app_r a b p : Str.endswith b p = true → Str.endswith (a +:+ b) p = true.
Proof.
  intros H. induction a as [|c a IH]; [done|].
  change (String c a +:+ b) with (String c (a +:+ b)). cbn [Str.endswith].
  rewrite IH. apply orb_true_r.
Qed.

(** ** Fence stripping leaves other text alone *)

(** X9: a content in which the fence marker does not occur is only
    trimmed. *)
Theorem clean_without_fence content :
  Str.occurs fence content = false → clean content = Str.strip content.
Proof.
  intros H. unfold clean.
  assert (Hs : Str.occurs fence (Str.strip content) = false) by by apply absent_strip.
  rewrite (replace_absent fence_tool).
  - rewrite (replace_absent fence) by done. apply strip_idem.
  - destruct (Str.occurs fence_tool (Str.strip content)) eqn:E; [|done].
    apply (occurs_app_l fence "tool_code") in E. congruence.
Qed.

Lemma clean_finish_call answer :
  Str.occurs fence answer = false →
  clean ("FINISH(" +:+ answer +:+ ")") = "FINISH(" +:+ answer +:+ ")".
Proof.
  intros H. rewrite clean_without_fence.
  - unfold Str.strip. rewrite append_cons. cbn [Str.lstrip].
    change (Str.isspace "F") with false. cbn iota. rewrite <- append_cons.
    rewrite <- append_assoc. by apply rstrip_snoc.
  - rewrite <- append_assoc, occurs_fence_snoc by done.
    rewrite !append_cons, append_empty_l. by rewrite !occurs_fence_cons.
Qed.

(** ** The completion check *)

(** X1: the completion check writes no key but [status] and
    [final_answer]. *)
Theorem is_completed_frame h (s : State) key :
  key ≠ "status" → key ≠ "final_answer" →
  (is_completed h s).2 !! key = s !! key.
Proof.
  intros Hk1 Hk2.
  destruct (is_completed_cases h s) as [E|[(_ & _ & a & E)|(_ & _ & E)]];
    rewrite E; cbn [snd]; [done| |].
  - by rewrite !lookup_insert_ne.
  - by rewrite lookup_insert_ne.
Qed.

(** X2: on a non-empty history the returned flag says whether the state
    the check leaves behind is terminal. *)
Theorem is_completed_flag h (s : State) :
  h ≠ [] → (is_completed h s).1 = status_terminal (is_completed h s).2.
Proof.
  intros Hh. unfold is_completed. destruct h as [|a l]; [done|].
  destruct (status_terminal s) eqn:Hs; [done|].
  destruct (last (a :: l)) as [m|]; [|done].
  case_bool_decide; [|done].
  destruct (Str.startswith _ "FINISH("); cbn [fst snd].
  - unfold status_terminal. by rewrite lookup_insert_eq.
  - destruct (negb _); cbn [fst snd]; [|done].
    unfold status_terminal. by rewrite lookup_insert_eq.
Qed.

(** X3: the completion check is idempotent: run again on the same
    history and the state it left, it returns the same flag and leaves
    the state as it is. *)
Theorem is_completed_idempotent h (s : State) :
  is_completed h (is_completed h s).2 = is_completed h s.
Proof.
  destruct h as [|a l]; [done|].
  destruct (status_terminal (is_completed (a :: l) s).2) eqn:Ht.
  - rewrite is_completed_terminal by done.
    rewrite <- Ht, <- is_completed_flag by done. by destruct (is_completed _ s).
  - destruct (is_completed_cases (a :: l) s) as [E|[(_ & _ & ans & E)|(_ & _ & E)]].
    + rewrite E. by destruct (is_completed _ s).
    + rewrite E in Ht. cbn [snd] in Ht. unfold status_terminal in Ht.
      by rewrite lookup_insert_eq in Ht.
    + rewrite E in Ht. cbn [snd] in Ht. unfold status_terminal in Ht.
      by rewrite lookup_insert_eq in Ht.
Qed.

(** X4: an answer in which the fence marker does not occur comes back as
    it was sent: for the utterance [FINISH(] + answer + [)] the check
    stores exactly the answer. *)
Theorem finish_round_trip h (s : State) answer :
  status_terminal s = false → Str.occurs fence answer = false →
  is_completed (h ++ [assistant_message ("FINISH(" +:+ answer +:+ ")")]) s =
    (true, <["status" := PyStr "completed"]> (<["final_answer" := PyStr answer]> s)).
Proof.
  intros Hs Ha. rewrite is_completed_assistant by done. cbn zeta.
  assert (Hc : get_content (assistant_message ("FINISH(" +:+ answer +:+ ")"))
               = "FINISH(" +:+ answer +:+ ")") by done.
  rewrite Hc, clean_finish_call by done.
  assert (Hp : Str.startswith ("FINISH(" +:+ answer +:+ ")") "FINISH(" = true).
  { unfold Str.startswith. apply (prefix_app_r "FINISH(" "FINISH("). done. }
  rewrite Hp. rewrite !append_cons, append_empty_l. cbn [Str.drop String.length].
  by rewrite removelast_snoc.
Qed.

(** ** The executor *)

Lemma startswith_finish_not_get_post c :
  Str.startswith c "FINISH(" = true →
  Str.startswith c "GET" = false ∧ Str.startswith c "POST" = false.
Proof.
  intros H. split.
  - destruct (Str.startswith c "GET") eqn:E; [|done].
    apply startswith_get_not_finish in E. congruence.
  - destruct (Str.startswith c "POST") eqn:E; [|done].
    apply startswith_post_not_finish in E. congruence.
Qed.

Lemma user_message_role text : user_message text !! "role" = Some "user".
Proof. unfold user_message. by rewrite lookup_insert_eq. Qed.

(** What the completion check decides in a state that is not terminal,
    with the message that decided it. *)
Lemma is_completed_verdict h (s : State) :
  status_terminal s = false →
  is_completed h s = (false, s)
  ∨ (∃ m : Message,
       last h = Some m ∧ m !! "role" = Some "assistant"
       ∧ Str.startswith (clean (get_content m)) "FINISH(" = true
       ∧ is_completed h s =
           (true, <["status" := PyStr "completed"]>
                    (<["final_answer" :=
                         PyStr (Str.removelast (Str.drop 7 (clean (get_content m))))]> s)))
  ∨ (∃ m : Message,
       last h = Some m ∧ m !! "role" = Some "assistant"
       ∧ Str.startswith (clean (get_content m)) "FINISH(" = false
       ∧ Str.startswith (clean (get_content m)) "GET" = false
       ∧ Str.startswith (clean (get_content m)) "POST" = false
       ∧ is_completed h s = (true, <["status" := PyStr "invalid_action"]> s)).
Proof.
  intros Hs. unfold is_completed. destruct h as [|a l]; [by left|]. rewrite Hs.
  destruct (last (a :: l)) as [m|]; [|by left].
  case_bool_decide as Hr; [|by left].
  destruct (Str.startswith _ "FINISH(") eqn:Hf.
  - right; left. by exists m.
  - destruct (Str.startswith _ "GET") eqn:Hg; [by left|].
    destruct (Str.startswith _ "POST") eqn:Hp; [by left|].
    right; right. by exists m.
Qed.

Section ExecutorMore.

Variable send_get_request : string → gmap string pyval.
Context {JSON : Type}.
Variable json_loads : string → result JSON.

Local Abbreviation turn := (step send_get_request json_loads).

Lemma get_observation_shape get_res (s : State) obs s' :
  get_observation get_res s = Ok (obs, s') → ∃ text, obs = [user_message text] ∧ s' = s.
Proof.
  unfold get_observation, getitem.
  destruct (get_res !! "data"); [intros [= <- <-]; by eexists|].
  destruct (get_res !! "error"); [intros [= <- <-]; by eexists|done].
Qed.

Lemma post_observation_shape content (s : State) obs s' :
  post_observation json_loads content s = Ok (obs, s') →
  ∃ text, obs = [user_message text] ∧ s' = s.
Proof.
  unfold post_observation. destruct (json_loads _); intros [= <- <-]; by eexists.
Qed.

(** X6: whenever the executor returns, it returns at most one
    observation, a user message, and the state it was given; it sends at
    most one request; and it has an observation only for a latest
    assistant message whose cleaned text starts with [GET] or [POST]. *)
Theorem env_response_shape h (s : State) obs s' :
  outcome (env_response send_get_request json_loads h s) = Ok (obs, s') →
  (obs = [] ∨ ∃ text, obs = [user_message text])
  ∧ s' = s
  ∧ (length (requests (env_response send_get_request json_loads h s)) ≤ 1)%nat
  ∧ (obs ≠ [] →
     ∃ m : Message,
       last h = Some m ∧ m !! "role" = Some "assistant"
       ∧ (Str.startswith (clean (get_content m)) "GET" = true
          ∨ Str.startswith (clean (get_content m)) "POST" = true)).
Proof.
  assert (Hnone : outcome (EnvResult [] (Ok ([], s))) = Ok (obs, s') →
    (obs = [] ∨ ∃ text, obs = [user_message text]) ∧ s' = s
    ∧ (length (requests (EnvResult [] (Ok ([] : list Message, s)))) ≤ 1)%nat
    ∧ (obs ≠ [] →
       ∃ m : Message,
         last h = Some m ∧ m !! "role" = Some "assistant"
         ∧ (Str.startswith (clean (get_content m)) "GET" = true
            ∨ Str.startswith (clean (get_content m)) "POST" = true))).
  { cbn [outcome requests]. intros [= <- <-].
    split; [by left|]. split; [done|]. split; [cbn; lia|done]. }
  unfold env_response. destruct (last h) as [m|]; [|done].
  case_bool_decide as Hr; cbn [negb]; [|done].
  destruct (Str.startswith _ "GET") eqn:Hg.
  - cbn [outcome requests]. intros H. apply get_observation_shape in H as (text & -> & ->).
    split; [right; by eexists|]. split; [done|]. split; [cbn; lia|].
    intros _. exists m. auto.
  - destruct (Str.startswith _ "POST") eqn:Hp; [|done].
    cbn [outcome requests]. intros H.
    apply post_observation_shape in H as (text & -> & ->).
    split; [right; by eexists|]. split; [done|]. split; [cbn; lia|].
    intros _. exists m. auto.
Qed.

(** X5: an observation never ends the conversation: in a state that is
    not terminal, the completion check run on the history extended by the
    executor's observation returns [False] and leaves the state alone. *)
Theorem observation_keeps_open h (s : State) obs s' :
  status_terminal s = false →
  outcome (env_response send_get_request json_loads h s) = Ok (obs, s') →
  obs ≠ [] →
  is_completed (h ++ obs) s' = (false, s').
Proof.
  intros Hs Hout Hobs.
  destruct (env_response_shape _ _ _ _ Hout) as ([->|[text ->]] & -> & _); [done|].
  rewrite is_completed_snoc. unfold is_completed. rewrite Hs. cbn [last].
  rewrite bool_decide_eq_false_2; [done|]. by rewrite user_message_role.
Qed.

(** X7: when the completion check ends the conversation from a state
    that is not terminal, the executor has nothing to do with the same
    history: it returns no observation, sends no request and gives back
    the state it gets. *)
Theorem verdict_no_observation h (s : State) :
  status_terminal s = false → (is_completed h s).1 = true →
  ∀ s'' : State,
    env_response send_get_request json_loads h s'' = EnvResult [] (Ok ([], s'')).
Proof.
  intros Hs Hflag s''.
  destruct (is_completed_verdict h s Hs)
    as [E|[(m & Hl & Hr & Hf & E)|(m & Hl & Hr & Hf & Hg & Hp & E)]].
  - by rewrite E in Hflag.
  - apply startswith_finish_not_get_post in Hf as [Hg Hp].
    unfold env_response. rewrite Hl, bool_decide_eq_true_2 by done.
    cbn [negb]. by rewrite Hg, Hp.
  - unfold env_response. rewrite Hl, bool_decide_eq_true_2 by done.
    cbn [negb]. by rewrite Hg, Hp.
Qed.

(** X8: a POST utterance of one line has the empty text parsed as its
    body; with a parser that rejects the empty text, as [json.loads] does,
    the observation says that the POST format is invalid. *)
Theorem post_without_body h (m : Message) (s : State) e :
  m !! "role" = Some "assistant" →
  Str.startswith (clean (get_content m)) "POST" = true →
  Str.occurs nl (clean (get_content m)) = false →
  json_loads "" = Raise e →
  env_response send_get_request json_loads (h ++ [m]) s =
    EnvResult [] (Ok ([user_message "Invalid POST request format"], s)).
Proof.
  intros Hr Hp Hn Hj. rewrite env_response_assistant by done. cbn zeta.
  rewrite (startswith_post_not_get _ Hp), Hp. unfold post_observation, nl.
  rewrite join_split_tail, after_first_absent by done. by rewrite Hj.
Qed.

(** ** Conversations *)

Lemma verdict_justified_initial c : initial c → verdict_justified c.
Proof.
  intros [Ht _]. apply status_terminal_false in Ht as [H1 H2].
  split; intros H; congruence.
Qed.

Lemma verdict_justified_step c c' :
  verdict_justified c → turn c c' → verdict_justified c'.
Proof.
  unfold verdict_justified.
  intros [Hc Hi] Hstep. destruct Hstep as [h s m|h s|h s obs s' Hout]; cbn [fst snd] in *.
  - split; intros H.
    + destruct (Hc H) as (m' & Hin & Hrest). exists m'. split; [|done].
      apply elem_of_app. by left.
    + destruct (Hi H) as (m' & Hin & Hrest). exists m'. split; [|done].
      apply elem_of_app. by left.
  - destruct (status_terminal s) eqn:Hs.
    + destruct (is_completed_cases h s) as [E|[(? & _)|(? & _)]]; [|congruence..].
      by rewrite E.
    + destruct (is_completed_verdict h s Hs)
        as [E|[(m & Hl & Hr & Hf & E)|(m & Hl & Hr & Hf & Hg & Hp & E)]];
        rewrite E; cbn [snd]; [done| |].
      * split; rewrite lookup_insert_eq; [|done]. intros _. exists m.
        split; [by apply last_Some_elem_of|]. split; [done|]. split; [done|].
        rewrite lookup_insert_ne by done. by rewrite lookup_insert_eq.
      * split; rewrite lookup_insert_eq; [done|]. intros _. exists m.
        split; [by apply last_Some_elem_of|]. done.
  - apply env_response_state in Hout as ->. split; intros H.
    + destruct (Hc H) as (m' & Hin & Hrest). exists m'. split; [|done].
      apply elem_of_app. by left.
    + destruct (Hi H) as (m' & Hin & Hrest). exists m'. split; [|done].
      apply elem_of_app. by left.
Qed.

(** X19: in every conversation a verdict has its message in the
    history: when the status is [completed], some assistant message of
    the history has a cleaned text that starts with [FINISH(], and the
    stored final answer is that text without its first seven characters
    and its last one; when the status is [invalid_action], some assistant
    message of the history has a cleaned text that starts with none of
    [FINISH(], [GET], [POST]. *)
Theorem verdict_has_its_message c0 c :
  initial c0 → rtc turn c0 c →
  (c.2 !! "status" = Some (PyStr "completed") →
     ∃ m : Message,
       m ∈ c.1 ∧ m !! "role" = Some "assistant"
       ∧ Str.startswith (clean (get_content m)) "FINISH(" = true
       ∧ c.2 !! "final_answer"
         = Some (PyStr (Str.removelast (Str.drop 7 (clean (get_content m))))))
  ∧ (c.2 !! "status" = Some (PyStr "invalid_action") →
       ∃ m : Message,
         m ∈ c.1 ∧ m !! "role" = Some "assistant"
         ∧ Str.startswith (clean (get_content m)) "FINISH(" = false
         ∧ Str.startswith (clean (get_content m)) "GET" = false
         ∧ Str.startswith (clean (get_content m)) "POST" = false).
Proof.
  intros H0 Hrtc. apply verdict_justified_initial in H0.
  change (verdict_justified c).
  induction Hrtc as [|x y z Hxy _ IH]; [done|].
  apply IH. by eapply verdict_justified_step.
Qed.

(** X20: along any stretch of a conversation the history only grows at
    its end, and from a terminal state on the state dictionary stays what
    it is. *)
Theorem conversation_monotone c c' :
  rtc turn c c' →
  c.1 `prefix_of` c'.1 ∧ (status_terminal c.2 = true → c'.2 = c.2).
Proof.
  induction 1 as [|x y z Hxy _ [IHp IHs]]; [done|].
  assert (Hp : x.1 `prefix_of` y.1).
  { destruct Hxy; cbn [fst]; [by eexists|done|by eexists]. }
  destruct (step_status _ _ _ _ Hxy) as [Hfix _].
  split; [by etrans|].
  intros Ht. specialize (Hfix Ht). rewrite IHs by by rewrite Hfix. done.
Qed.

End ExecutorMore.

(** ** The reward function and the dispatcher *)

(** Replaying a history either fails on a user or assistant message
    without content, or succeeds on a history where each of them has
    one. *)
Lemma replay_cases completion :
  (replay completion = Raise (KeyError "content")
   ∧ ∃ m : Message, m ∈ completion
       ∧ (m !! "role" = Some "assistant" ∨ m !! "role" = Some "user")
       ∧ m !! "content" = None)
  ∨ ((∃ hist, replay completion = Ok hist)
     ∧ ∀ m : Message, m ∈ completion →
         m !! "role" = Some "assistant" ∨ m !! "role" = Some "user" →
         is_Some (m !! "content")).
Proof.
  induction completion as [|msg rest IH].
  - right. split; [by eexists|]. by intros m Hm%elem_of_nil.
  - cbn [replay]. unfold getitem, mbind, result_bind.
    assert (Hlift : (∃ m : Message, m ∈ rest
                ∧ (m !! "role" = Some "assistant" ∨ m !! "role" = Some "user")
                ∧ m !! "content" = None) →
              ∃ m : Message, m ∈ msg :: rest
                ∧ (m !! "role" = Some "assistant" ∨ m !! "role" = Some "user")
                ∧ m !! "content" = None).
    { intros (m & Hin & Hm). exists m. split; [by right|done]. }
    case_bool_decide as Ha; [|case_bool_decide as Hu].
    + destruct (msg !! "content") as [c|] eqn:Ec.
      * destruct IH as [[-> Hex]|[[hist ->] Hall]]; [left; auto|].
        right. split; [by eexists|]. intros m [->|Hin]%elem_of_cons Hrole; [by eexists|].
        by apply Hall.
      * left. split; [done|]. exists msg. split; [by left|]. auto.
    + destruct (msg !! "content") as [c|] eqn:Ec.
      * destruct IH as [[-> Hex]|[[hist ->] Hall]]; [left; auto|].
        right. split; [by eexists|]. intros m [->|Hin]%elem_of_cons Hrole; [by eexists|].
        by apply Hall.
      * left. split; [done|]. exists msg. split; [by left|]. auto.
    + destruct IH as [[-> Hex]|[Hok Hall]]; [left; auto|].
      right. split; [done|]. intros m [->|Hin]%elem_of_cons Hrole; [by destruct Hrole|].
      by apply Hall.
Qed.

(** X13: replaying keeps the order of the turns: the replay of two
    histories put end to end is the replay of the first followed by the
    replay of the second, and it fails when either fails. *)
Theorem replay_app a b :
  replay (a ++ b) = (ha ← replay a; hb ← replay b; Ok (ha ++ hb)).
Proof.
  induction a as [|msg rest IH].
  - cbn. by destruct (replay b).
  - cbn [app replay]. rewrite IH. unfold getitem, mbind, result_bind.
    repeat case_bool_decide.
    + destruct (msg !! "content"); [|done].
      destruct (replay rest); [|done]. by destruct (replay b).
    + destruct (msg !! "content"); [|done].
      destruct (replay rest); [|done]. by destruct (replay b).
    + done.
Qed.

Section GradingMore.

Variable refsol : string → option Grader.
Variable verify_fhir_server : string → result bool.
Variable fhir_api_base : string.

(** X10: without status [completed], or without a stored final
    answer, the reward is 0, whatever the history, the case, the server
    and the registered routines are. *)
Theorem reward_zero_without_answer completion info (state : State) :
  state !! "status" ≠ Some (PyStr "completed") ∨ state !! "final_answer" = None →
  medagent_bench_reward_func refsol verify_fhir_server fhir_api_base completion info state
  = Ok 0%Z.
Proof.
  intros H. unfold medagent_bench_reward_func.
  case_bool_decide as Hs; cbn [negb]; [|done].
  destruct H as [H|H]; [done|]. by rewrite H.
Qed.

(** X11: when the health check answers [False] or raises, a
    completed conversation whose history replays gets the reward 0,
    whatever the routine would say. *)
Theorem reward_zero_server_down completion info (state : State) final_answer results :
  state !! "status" = Some (PyStr "completed") →
  state !! "final_answer" = Some final_answer →
  Results_init completion final_answer = Ok results →
  verify_fhir_server fhir_api_base = Ok false
  ∨ (∃ e, verify_fhir_server fhir_api_base = Raise e) →
  medagent_bench_reward_func refsol verify_fhir_server fhir_api_base completion info state
  = Ok 0%Z.
Proof.
  intros Hs Hf Hres Hv. unfold medagent_bench_reward_func.
  rewrite bool_decide_eq_true_2 by done. cbn [negb]. rewrite Hf, Hres.
  unfold mbind, result_bind, try_except.
  by destruct Hv as [->|[e ->]].
Qed.

(** X12: the replay of the history is not under the [try]: for a
    completed conversation with a final answer the reward function raises
    if and only if some user or assistant message of the history has no
    [content] key, and what it raises then is [KeyError('content')]. *)
Theorem reward_raises_on_missing_content completion info (state : State) final_answer :
  state !! "status" = Some (PyStr "completed") →
  state !! "final_answer" = Some final_answer →
  let reward :=
    medagent_bench_reward_func refsol verify_fhir_server fhir_api_base completion info state in
  ((∃ e, reward = Raise e)
   ↔ ∃ m : Message, m ∈ completion
       ∧ (m !! "role" = Some "assistant" ∨ m !! "role" = Some "user")
       ∧ m !! "content" = None)
  ∧ ∀ e, reward = Raise e → e = KeyError "content".
Proof.
  intros Hs Hf reward. unfold reward, medagent_bench_reward_func.
  rewrite bool_decide_eq_true_2 by done. cbn [negb]. rewrite Hf.
  unfold Results_init, mbind, result_bind, try_except.
  destruct (replay_cases completion) as [[-> Hex]|[[hist ->] Hall]].
  - split; [|by intros e [= <-]]. split; [done|by eexists].
  - assert (Hok : ∃ n,
        match
          match verify_fhir_server fhir_api_base with
          | Ok a =>
              if negb a then Raise (Exception "FHIR server is unreachable.")
              else
                match eval refsol fhir_api_base info (mkResults hist final_answer) with
                | Ok a0 => Ok (if truthy a0 then 1%Z else 0%Z)
                | Raise e => Raise e
                end
          | Raise e => Raise e
          end
        with
        | Ok a => Ok a
        | Raise _ => Ok 0%Z
        end = Ok n).
    { destruct (verify_fhir_server _) as [[|]|]; cbn [negb]; [|by eexists..].
      destruct (eval _ _ _ _); by eexists. }
    destruct Hok as [n ->]. split; [|done]. split; [by intros [? ?]|].
    intros (m & Hin & Hrole & Hnone). destruct (Hall m Hin Hrole) as [c Hc]. congruence.
Qed.

(** X14: a verdict of [eval] is true only for a routine that returned
    exactly [True]: when [eval] returns, its value is truthy if and only
    if the case has a string id and the routine registered under the text
    before its first underscore returned [True] itself. *)
Theorem eval_truthy_iff_true case_data results v :
  eval refsol fhir_api_base case_data results = Ok v →
  (truthy v = true
   ↔ ∃ id grader_func,
       case_data !! "id" = Some (PyStr id)
       ∧ refsol (before_first "_" id) = Some grader_func
       ∧ grader_func case_data results fhir_api_base = Ok (PyBool true)).
Proof.
  unfold eval, task_id_of, getitem, getattr_refsol, mbind, result_bind, try_except.
  destruct (case_data !! "id") as [[| | |id]|]; try done.
  rewrite split_hd.
  destruct (refsol (before_first "_" id)) as [g|] eqn:Eg; [|done].
  destruct (g case_data results fhir_api_base) as [w|e] eqn:Ew.
  - case_bool_decide as Hw; intros [= <-].
    + subst w. split; [intros _; by exists id, g|done].
    + split; [done|]. intros (id' & g' & [= <-] & Hg' & Hw').
      rewrite Eg in Hg'. injection Hg' as <-. congruence.
  - intros [= <-]. split; [done|]. intros (id' & g' & [= <-] & Hg' & Hw').
    rewrite Eg in Hg'. injection Hg' as <-. congruence.
Qed.

(** X15: [eval] looks the routine up outside its [try]: without an [id]
    key it raises [KeyError('id')], with no routine registered under the
    task id it raises [AttributeError], and once the id is a string and
    the routine is there it returns, whatever the routine does. *)
Theorem eval_raises_without_routine case_data results :
  (case_data !! "id" = None →
     eval refsol fhir_api_base case_data results = Raise (KeyError "id"))
  ∧ (∀ id, case_data !! "id" = Some (PyStr id) →
       refsol (before_first "_" id) = None →
       eval refsol fhir_api_base case_data results
       = Raise (AttributeError (before_first "_" id)))
  ∧ (∀ id grader_func, case_data !! "id" = Some (PyStr id) →
       refsol (before_first "_" id) = Some grader_func →
       ∃ v, eval refsol fhir_api_base case_data results = Ok v).
Proof.
  unfold eval, task_id_of, getitem, getattr_refsol, mbind, result_bind, try_except.
  split; [by intros ->|]. split.
  - intros id -> Hr. by rewrite split_hd, Hr.
  - intros id g -> Hr. rewrite split_hd, Hr.
    destruct (g case_data results fhir_api_base); [case_bool_decide|]; by eexists.
Qed.

End GradingMore.

(** X16: the task id of a case: for an id made of a text without
    underscore, an underscore and anything, it is that text; for an id
    without underscore it is the whole id; and it never holds an
    underscore. *)
Theorem task_id_of_id case_data id :
  case_data !! "id" = Some (PyStr id) →
  (∀ task rest, id = task +:+ "_" +:+ rest → Str.occurs "_" task = false →
     task_id_of case_data = Ok task)
  ∧ (Str.occurs "_" id = false → task_id_of case_data = Ok id)
  ∧ ∃ task, task_id_of case_data = Ok task ∧ Str.occurs "_" task = false.
Proof.
  intros Hid. unfold task_id_of, getitem, mbind, result_bind. rewrite Hid, split_hd.
  split; [|split].
  - intros task rest -> Ht. rewrite append_cons, append_empty_l.
    by rewrite (before_first_app "_"%char).
  - intros Hn. by rewrite (before_first_absent "_"%char).
  - eexists. split; [done|]. apply (before_first_free "_"%char).
Qed.

(** X17: the task filter and the dispatcher read the same task id: a
    case that [filter_by_tasks] keeps is graded by the routine named by
    one of the listed tasks, and [eval] on it raises [AttributeError] for
    that name when no such routine is registered. *)
Theorem filter_then_dispatch tasks case_data :
  filter_by_tasks tasks case_data = Ok true →
  ∃ task, task ∈ tasks ∧ task_id_of case_data = Ok task
    ∧ ∀ (refsol : string → option Grader) fhir_api_base results,
        match refsol task with
        | None => eval refsol fhir_api_base case_data results = Raise (AttributeError task)
        | Some grader_func =>
            eval refsol fhir_api_base case_data results =
              Ok (match grader_func case_data results fhir_api_base with
                  | Ok (PyBool true) => PyBool true
                  | Ok _ => PyNone
                  | Raise _ => PyBool false
                  end)
        end.
Proof.
  unfold filter_by_tasks, eval, mbind, result_bind.
  destruct (task_id_of case_data) as [task|e]; [|done].
  intros [= Hin%bool_decide_eq_true]. exists task. split; [done|]. split; [done|].
  intros refsol base results. unfold getattr_refsol, try_except.
  destruct (refsol task) as [g|]; [|done].
  destruct (g case_data results base) as [[|[|]| |]|]; done.
Qed.

(** ** The initial prompt *)

Lemma endswith_refl s : Str.endswith s s = true.
Proof. destruct s; cbn [Str.endswith]; by rewrite String.eqb_refl. Qed.

Section PromptFacts.

Context {Funcs : Type}.
Variable json_dumps : Funcs → string.

(** X18: the prompt is one user message; its text holds the API base
    and the rendered catalog, and ends with the context line and the
    question line, where a case without [context] or [instruction] gets an
    empty field. *)
Theorem prompt_contents case_data fhir_api_base (funcs : Funcs) :
  let context := py_str (default (PyStr "") (case_data !! "context")) in
  let question := py_str (default (PyStr "") (case_data !! "instruction")) in
  ∃ text,
    generate_prompt_messages json_dumps case_data fhir_api_base funcs = [user_message text]
    ∧ Str.occurs fhir_api_base text = true
    ∧ Str.occurs (json_dumps funcs) text = true
    ∧ Str.endswith text ("Context: " +:+ context +:+ nl +:+ "Question: " +:+ question) = true.
Proof.
  intros context question. eexists. split; [done|].
  fold context question. unfold MED_AGENT_BENCH_PROMPT. cbn [Str.join].
  split; [|split].
  - do 28 apply occurs_app_rr. apply occurs_app_r.
    apply (occurs_middle _ fhir_api_base).
  - do 30 apply occurs_app_rr. apply occurs_app_r, occurs_refl.
  - do 34 apply endswith_app_r. rewrite append_assoc. apply endswith_refl.
Qed.

(** X21: the prompt alone neither ends the conversation nor asks for
    anything: in a state that is not terminal the completion check
    returns [False] on it and leaves the state alone, and the executor
    returns no observation and sends no request. *)
Theorem prompt_leaves_conversation_open
    (send_get_request : string → gmap string pyval) {JSON : Type}
    (json_loads : string → result JSON) case_data fhir_api_base (funcs : Funcs) (s : State) :
  status_terminal s = false →
  let prompt := generate_prompt_messages json_dumps case_data fhir_api_base funcs in
  is_completed prompt s = (false, s)
  ∧ env_response send_get_request json_loads prompt s = EnvResult [] (Ok ([], s)).
Proof.
  intros Hs prompt. unfold prompt, generate_prompt_messages. split.
  - unfold is_completed. rewrite Hs. cbn [last].
    rewrite bool_decide_eq_false_2; [done|]. by rewrite user_message_role.
  - unfold env_response. cbn [last].
    rewrite bool_decide_eq_false_2; [done|]. by rewrite user_message_role.
Qed.

End PromptFacts.

(** ** Concrete runs *)

Lemma status_transitions_witness :
  let c0 : list Message * State := ([user_message "prompt"], ∅) in
  let c : list Message * State :=
    ([user_message "prompt"; assistant_message "FINISH([1, 2])"],
     <["status" := PyStr "completed"]> (<["final_answer" := PyStr "[1, 2]"]> ∅)) in
  initial c0
  ∧ rtc (step backend_data json_loads_sample) c0 c
  ∧ (is_Some (c.2 !! "final_answer") ↔ c.2 !! "status" = Some (PyStr "completed"))
  ∧ (status_terminal c.2 = true → ∀ more, is_completed (c.1 ++ more) c.2 = (true, c.2)).
Proof.
  intros c0 c.
  assert (H0 : initial c0) by (split; reflexivity).
  assert (Hrtc : rtc (step backend_data json_loads_sample) c0 c).
  { eapply rtc_l; [apply (step_message _ _ _ _ (assistant_message "FINISH([1, 2])"))|].
    eapply rtc_l; [apply step_check|]. apply rtc_refl. }
  split; [exact H0|]. split; [exact Hrtc|].
  destruct (status_transitions backend_data json_loads_sample c0 c H0 Hrtc) as (Hfa & Hterm & _).
  split; [exact Hfa|exact Hterm].
Defined.

Lemma finish_captures_answer_witness :
  let m : Message := assistant_message " ```tool_code FINISH([1, 2]) ``` " in
  m !! "role" = Some "assistant"
  ∧ status_terminal (∅ : State) = false
  ∧ Str.startswith (clean (get_content m)) "FINISH(" = true
  ∧ is_completed ([user_message "prompt"] ++ [m]) ∅ =
      (true, <["status" := PyStr "completed"]>
               (<["final_answer" :=
                    PyStr (Str.removelast (Str.drop 7 (clean (get_content m))))]> ∅)).
Proof.
  intros m.
  assert (Hr : m !! "role" = Some "assistant") by (vm_compute; reflexivity).
  assert (Hs : status_terminal (∅ : State) = false) by reflexivity.
  assert (Hf : Str.startswith (clean (get_content m)) "FINISH(" = true)
    by (vm_compute; reflexivity).
  split; [exact Hr|]. split; [exact Hs|]. split; [exact Hf|].
  exact (proj1 finish_captures_answer [user_message "prompt"] m ∅ Hr Hs Hf).
Defined.

(** C2, the claim as written, at its own example: the text stored for
    [FINISH([1, 2])] is [[1, 2]], not [1, 2]. *)
Lemma finish_answer_keeps_brackets :
  let state' := (is_completed [assistant_message "FINISH([1, 2])"] ∅).2 in
  state' !! "status" = Some (PyStr "completed")
  ∧ state' !! "final_answer" = Some (PyStr "[1, 2]")
  ∧ ¬ (state' !! "status" = Some (PyStr "completed")
       ∧ state' !! "final_answer" = Some (PyStr "1, 2")).
Proof.
  intros state'.
  assert (Hfa : state' !! "final_answer" = Some (PyStr "[1, 2]")) by (vm_compute; reflexivity).
  split; [vm_compute; reflexivity|]. split; [exact Hfa|].
  intros [_ H]. rewrite Hfa in H. discriminate H.
Qed.

Lemma invalid_action_terminal_witness :
  let m : Message := assistant_message "HELLO" in
  m !! "role" = Some "assistant"
  ∧ status_terminal (∅ : State) = false
  ∧ Str.startswith (clean (get_content m)) "FINISH(" = false
  ∧ Str.startswith (clean (get_content m)) "GET" = false
  ∧ Str.startswith (clean (get_content m)) "POST" = false
  ∧ is_completed ([user_message "prompt"] ++ [m]) ∅
    = (true, <["status" := PyStr "invalid_action"]> ∅)
  ∧ env_response backend_data json_loads_sample ([user_message "prompt"] ++ [m]) ∅
    = EnvResult [] (Ok ([], ∅)).
Proof.
  intros m.
  assert (Hr : m !! "role" = Some "assistant") by (vm_compute; reflexivity).
  assert (Hs : status_terminal (∅ : State) = false) by reflexivity.
  assert (Hf : Str.startswith (clean (get_content m)) "FINISH(" = false)
    by (vm_compute; reflexivity).
  assert (Hg : Str.startswith (clean (get_content m)) "GET" = false)
    by (vm_compute; reflexivity).
  assert (Hp : Str.startswith (clean (get_content m)) "POST" = false)
    by (vm_compute; reflexivity).
  destruct (invalid_action_terminal backend_data json_loads_sample
              [user_message "prompt"] m ∅ Hr Hs Hf Hg Hp) as (H1 & _ & H2).
  exact (conj Hr (conj Hs (conj Hf (conj Hg (conj Hp (conj H1 (H2 ∅))))))).
Defined.

Lemma get_observation_and_status_witness :
  let m : Message := assistant_message "GET patients?id=1" in
  m !! "role" = Some "assistant"
  ∧ status_terminal (∅ : State) = false
  ∧ Str.startswith (clean (get_content m)) "GET" = true
  ∧ is_completed ([user_message "prompt"] ++ [m]) ∅ = (false, ∅)
  ∧ requests (env_response backend_data json_loads_sample ([user_message "prompt"] ++ [m]) ∅)
    = ["patients?id=1&_format=json"].
Proof.
  intros m.
  assert (Hr : m !! "role" = Some "assistant") by (vm_compute; reflexivity).
  assert (Hs : status_terminal (∅ : State) = false) by reflexivity.
  assert (Hg : Str.startswith (clean (get_content m)) "GET" = true)
    by (vm_compute; reflexivity).
  destruct (get_observation_and_status backend_data json_loads_sample
              [user_message "prompt"] m ∅ Hr Hs Hg) as (H1 & H2 & _).
  exact (conj Hr (conj Hs (conj Hg (conj H1 H2)))).
Defined.

Lemma post_observation_and_status_witness :
  let m : Message := assistant_message ("POST patients" +:+ nl +:+ "[1]") in
  m !! "role" = Some "assistant"
  ∧ status_terminal (∅ : State) = false
  ∧ Str.startswith (clean (get_content m)) "POST" = true
  ∧ is_completed ([user_message "prompt"] ++ [m]) ∅ = (false, ∅)
  ∧ requests (env_response backend_data json_loads_sample ([user_message "prompt"] ++ [m]) ∅)
    = [].
Proof.
  intros m.
  assert (Hr : m !! "role" = Some "assistant") by (vm_compute; reflexivity).
  assert (Hs : status_terminal (∅ : State) = false) by reflexivity.
  assert (Hp : Str.startswith (clean (get_content m)) "POST" = true)
    by (vm_compute; reflexivity).
  destruct (post_observation_and_status backend_data json_loads_sample
              [user_message "prompt"] m ∅ Hr Hs Hp) as (H1 & H2 & _).
  exact (conj Hr (conj Hs (conj Hp (conj H1 H2)))).
Defined.

Lemma grading_failure_is_zero_witness :
  let completion := [user_message "prompt"; assistant_message "FINISH([1, 2])"] in
  let info : gmap string pyval := {[ "id" := PyStr "task4_7" ]} in
  let state : State :=
    <["status" := PyStr "completed"]> (<["final_answer" := PyStr "[1, 2]"]> ∅) in
  let results :=
    mkResults [HistoryMessage_init "user" "prompt";
               HistoryMessage_init "agent" "FINISH([1, 2])"] (PyStr "[1, 2]") in
  state !! "status" = Some (PyStr "completed")
  ∧ state !! "final_answer" = Some (PyStr "[1, 2]")
  ∧ Results_init completion (PyStr "[1, 2]") = Ok results
  ∧ info !! "id" = Some (PyStr "task4_7")
  ∧ (∃ grader_func v, refsol_sample (before_first "_" "task4_7") = Some grader_func
                      ∧ grader_func info results "http://fhir" = Ok v ∧ v ≠ PyBool true)
  ∧ medagent_bench_reward_func refsol_sample verify_ok "http://fhir" completion info state
    = Ok 0%Z.
Proof.
  intros completion info state results.
  assert (Hs : state !! "status" = Some (PyStr "completed")) by (vm_compute; reflexivity).
  assert (Hf : state !! "final_answer" = Some (PyStr "[1, 2]")) by (vm_compute; reflexivity).
  assert (Hres : Results_init completion (PyStr "[1, 2]") = Ok results)
    by (vm_compute; reflexivity).
  assert (Hid : info !! "id" = Some (PyStr "task4_7")) by (vm_compute; reflexivity).
  assert (Hg : ∃ grader_func v, refsol_sample (before_first "_" "task4_7") = Some grader_func
                 ∧ grader_func info results "http://fhir" = Ok v ∧ v ≠ PyBool true).
  { eexists _, (PyInt 1). split; [reflexivity|]. split; [reflexivity|]. discriminate. }
  refine (conj Hs (conj Hf (conj Hres (conj Hid (conj Hg _))))).
  apply (grading_failure_is_zero refsol_sample verify_ok "http://fhir"
           completion info state (PyStr "[1, 2]") results "task4_7" Hs Hf Hres Hid).
  right; right. exact Hg.
Defined.

(** C7, the claim as written, fails on both error paths: neither the
    observation of a failed GET nor that of a malformed POST ends with
    the reminder. *)
Lemma error_observations_lack_reminder :
  outcome (env_response backend_error json_loads_sample
             [assistant_message "GET patients?id=1"] ∅)
  = Ok ([user_message "Error in sending the GET request: E"], ∅)
  ∧ Str.endswith "Error in sending the GET request: E" finish_reminder = false
  ∧ outcome (env_response backend_error json_loads_sample
               [assistant_message ("POST patients" +:+ nl +:+ "[1")] ∅)
    = Ok ([user_message "Invalid POST request format"], ∅)
  ∧ Str.endswith "Invalid POST request format" finish_reminder = false.
Proof. repeat split; vm_compute; reflexivity. Qed.

Lemma reminder_only_on_success_witness :
  let m : Message := assistant_message "GET patients?id=1" in
  m !! "role" = Some "assistant"
  ∧ Str.startswith (clean (get_content m)) "GET" = true
  ∧ backend_data "patients?id=1&_format=json" !! "data" = Some (PyStr "X")
  ∧ ∃ text,
      outcome (env_response backend_data json_loads_sample ([user_message "prompt"] ++ [m]) ∅)
      = Ok ([user_message text], ∅)
      ∧ Str.endswith text finish_reminder = true.
Proof.
  intros m.
  assert (Hr : m !! "role" = Some "assistant") by (vm_compute; reflexivity).
  assert (Hg : Str.startswith (clean (get_content m)) "GET" = true)
    by (vm_compute; reflexivity).
  assert (Hd : backend_data "patients?id=1&_format=json" !! "data" = Some (PyStr "X"))
    by (vm_compute; reflexivity).
  refine (conj Hr (conj Hg (conj Hd _))).
  destruct (reminder_only_on_success backend_data json_loads_sample
              [user_message "prompt"] m ∅ Hr) as [Hget _].
  exact (proj1 (Hget Hg) (PyStr "X") Hd).
Defined.

Lemma get_needs_data_or_error_witness :
  let m : Message := assistant_message "GET patients?id=1" in
  m !! "role" = Some "assistant"
  ∧ Str.startswith (clean (get_content m)) "GET" = true
  ∧ backend_neither "patients?id=1&_format=json" !! "data" = None
  ∧ backend_neither "patients?id=1&_format=json" !! "error" = None
  ∧ env_response backend_neither json_loads_sample ([user_message "prompt"] ++ [m]) ∅
    = EnvResult ["patients?id=1&_format=json"] (Raise (KeyError "error")).
Proof.
  intros m.
  assert (Hr : m !! "role" = Some "assistant") by (vm_compute; reflexivity).
  assert (Hg : Str.startswith (clean (get_content m)) "GET" = true)
    by (vm_compute; reflexivity).
  assert (Hd : backend_neither "patients?id=1&_format=json" !! "data" = None)
    by (vm_compute; reflexivity).
  assert (He : backend_neither "patients?id=1&_format=json" !! "error" = None)
    by (vm_compute; reflexivity).
  refine (conj Hr (conj Hg (conj Hd (conj He _)))).
  exact (proj1 (get_needs_data_or_error backend_neither json_loads_sample
                  [user_message "prompt"] m ∅ Hr Hg) Hd He).
Defined.

Lemma no_assistant_no_effect_witness :
  let messages : list Message := [assistant_message "GET a"; user_message "observation"] in
  (messages = [] ∨ ∃ m : Message, last messages = Some m ∧ m !! "role" ≠ Some "assistant")
  ∧ env_response backend_data json_loads_sample messages (<["turn" := PyInt 1]> ∅)
    = EnvResult [] (Ok ([], <["turn" := PyInt 1]> ∅)).
Proof.
  intros messages.
  assert (H : messages = [] ∨
              ∃ m : Message, last messages = Some m ∧ m !! "role" ≠ Some "assistant").
  { right. exists (user_message "observation"). split; [reflexivity|].
    vm_compute. discriminate. }
  split; [exact H|].
  exact (no_assistant_no_effect backend_data json_loads_sample messages _ H).
Defined.

(** The runs the specification lists. *)
Example run_hello :
  is_completed [user_message "prompt"; assistant_message "HELLO"] ∅
  = (true, <["status" := PyStr "invalid_action"]> ∅).
Proof. vm_compute. reflexivity. Qed.

Example run_get_data :
  outcome (env_response backend_data json_loads_sample
             [assistant_message "GET patients?id=1"] ∅)
  = Ok ([user_message ("Here is the response from the GET request:" +:+ nl +:+ "X. "
                       +:+ finish_reminder)], ∅).
Proof. vm_compute. reflexivity. Qed.

Example run_post_accepted :
  outcome (env_response backend_data json_loads_sample
             [assistant_message ("POST patients" +:+ nl +:+ "[1]")] ∅)
  = Ok ([user_message ("POST request accepted and executed successfully. "
                       +:+ finish_reminder)], ∅).
Proof. vm_compute. reflexivity. Qed.

Example run_task_id : task_id_of {[ "id" := PyStr "task3_7" ]} = Ok "task3".
Proof. vm_compute. reflexivity. Qed.

Example run_reward_correct :
  let completion := [user_message "prompt"; assistant_message "FINISH([1, 2])"] in
  medagent_bench_reward_func refsol_sample verify_ok "http://fhir" completion
    {[ "id" := PyStr "task3_7" ]} (is_completed completion ∅).2 = Ok 1%Z.
Proof. vm_compute. reflexivity. Qed.

(** With an empty history the completion check answers [False] in every
    state, a terminal one included; no conversation reaches that. *)
Example run_empty_history :
  is_completed [] (<["status" := PyStr "completed"]> ∅)
  = (false, <["status" := PyStr "completed"]> ∅).
Proof. reflexivity. Qed.

Example replace_ex1 : Str.replace "ab" "X" "cabbabab" = "cXbXX". Proof. reflexivity. Qed.
Example replace_ex2 : Str.replace "" "-" "abc" = "-a-b-c-". Proof. reflexivity. Qed.
Example replace_ex3 : Str.replace fence "" "`````` GET `x```` " = " GET `x` ". Proof. reflexivity. Qed.
Example strip_ex1 : Str.strip "  a b  " = "a b". Proof. reflexivity. Qed.
Example split_ex1 : Str.split "_" "task3_7_x" = ["task3"; "7"; "x"]. Proof. reflexivity. Qed.
Example split_ex2 : Str.split "_" "" = [""]. Proof. reflexivity. Qed.
Example join_ex1 : Str.join "," ["a"; "b"; "c"] = "a,b,c". Proof. reflexivity. Qed.
Example slice_ex1 : Str.removelast (Str.drop 7 "FINISH([1, 2])") = "[1, 2]". Proof. reflexivity. Qed.
Example ends_ex1 : Str.endswith "hello" "llo" = true. Proof. reflexivity. Qed.

(** ** Concrete runs of the further properties *)

Lemma is_completed_frame_witness :
  let s : State := <["turn" := PyInt 3]> ∅ in
  let h := [user_message "prompt"; assistant_message "FINISH([1, 2])"] in
  "turn" ≠ "status" ∧ "turn" ≠ "final_answer"
  ∧ (is_completed h s).2 !! "turn" = s !! "turn".
Proof.
  intros s h.
  assert (H1 : "turn" ≠ "status") by discriminate.
  assert (H2 : "turn" ≠ "final_answer") by discriminate.
  exact (conj H1 (conj H2 (is_completed_frame h s "turn" H1 H2))).
Defined.

Lemma is_completed_flag_witness :
  let h := [user_message "prompt"; assistant_message "HELLO"] in
  h ≠ [] ∧ (is_completed h ∅).1 = status_terminal (is_completed h ∅).2.
Proof.
  intros h. assert (Hh : h ≠ []) by discriminate.
  exact (conj Hh (is_completed_flag h ∅ Hh)).
Defined.

Lemma finish_round_trip_witness :
  status_terminal (∅ : State) = false
  ∧ Str.occurs fence "[1, 2]" = false
  ∧ is_completed ([user_message "prompt"]
                  ++ [assistant_message ("FINISH(" +:+ "[1, 2]" +:+ ")")]) ∅
    = (true, <["status" := PyStr "completed"]> (<["final_answer" := PyStr "[1, 2]"]> ∅)).
Proof.
  assert (Hs : status_terminal (∅ : State) = false) by reflexivity.
  assert (Ha : Str.occurs fence "[1, 2]" = false) by reflexivity.
  exact (conj Hs (conj Ha (finish_round_trip [user_message "prompt"] ∅ "[1, 2]" Hs Ha))).
Defined.

Lemma clean_without_fence_witness :
  Str.occurs fence "  GET a  " = false ∧ clean "  GET a  " = Str.strip "  GET a  ".
Proof.
  assert (H : Str.occurs fence "  GET a  " = false) by reflexivity.
  exact (conj H (clean_without_fence "  GET a  " H)).
Defined.

Lemma env_response_shape_witness :
  let h := [user_message "prompt"; assistant_message "GET patients?id=1"] in
  let obs := [user_message ("Here is the response from the GET request:" +:+ nl +:+ "X. "
                            +:+ finish_reminder)] in
  outcome (env_response backend_data json_loads_sample h ∅) = Ok (obs, ∅)
  ∧ (obs = [] ∨ ∃ text, obs = [user_message text])
  ∧ (length (requests (env_response backend_data json_loads_sample h ∅)) ≤ 1)%nat.
Proof.
  intros h obs.
  assert (Hout : outcome (env_response backend_data json_loads_sample h ∅) = Ok (obs, ∅))
    by (vm_compute; reflexivity).
  destruct (env_response_shape backend_data json_loads_sample h ∅ obs ∅ Hout)
    as (H1 & _ & H2 & _).
  exact (conj Hout (conj H1 H2)).
Defined.

Lemma observation_keeps_open_witness :
  let h := [user_message "prompt"; assistant_message "GET patients?id=1"] in
  let obs := [user_message ("Here is the response from the GET request:" +:+ nl +:+ "X. "
                            +:+ finish_reminder)] in
  status_terminal (∅ : State) = false
  ∧ outcome (env_response backend_data json_loads_sample h ∅) = Ok (obs, ∅)
  ∧ obs ≠ []
  ∧ is_completed (h ++ obs) ∅ = (false, ∅).
Proof.
  intros h obs.
  assert (Hs : status_terminal (∅ : State) = false) by reflexivity.
  assert (Hout : outcome (env_response backend_data json_loads_sample h ∅) = Ok (obs, ∅))
    by (vm_compute; reflexivity).
  assert (Hobs : obs ≠ []) by discriminate.
  exact (conj Hs (conj Hout (conj Hobs
           (observation_keeps_open backend_data json_loads_sample h ∅ obs ∅ Hs Hout Hobs)))).
Defined.

Lemma verdict_no_observation_witness :
  let h := [user_message "prompt"; assistant_message "FINISH([1, 2])"] in
  status_terminal (∅ : State) = false
  ∧ (is_completed h ∅).1 = true
  ∧ env_response backend_data json_loads_sample h ∅ = EnvResult [] (Ok ([], ∅)).
Proof.
  intros h.
  assert (Hs : status_terminal (∅ : State) = false) by reflexivity.
  assert (Hf : (is_completed h ∅).1 = true) by (vm_compute; reflexivity).
  exact (conj Hs (conj Hf
           (verdict_no_observation backend_data json_loads_sample h ∅ Hs Hf ∅))).
Defined.

Lemma post_without_body_witness :
  let m : Message := assistant_message "POST patients" in
  m !! "role" = Some "assistant"
  ∧ Str.startswith (clean (get_content m)) "POST" = true
  ∧ Str.occurs nl (clean (get_content m)) = false
  ∧ json_loads_sample "" = Raise (Exception "JSONDecodeError")
  ∧ env_response backend_data json_loads_sample ([user_message "prompt"] ++ [m]) ∅
    = EnvResult [] (Ok ([user_message "Invalid POST request format"], ∅)).
Proof.
  intros m.
  assert (Hr : m !! "role" = Some "assistant") by (vm_compute; reflexivity).
  assert (Hp : Str.startswith (clean (get_content m)) "POST" = true)
    by (vm_compute; reflexivity).
  assert (Hn : Str.occurs nl (clean (get_content m)) = false) by (vm_compute; reflexivity).
  assert (Hj : json_loads_sample "" = Raise (Exception "JSONDecodeError")) by reflexivity.
  exact (conj Hr (conj Hp (conj Hn (conj Hj
           (post_without_body backend_data json_loads_sample
              [user_message "prompt"] m ∅ _ Hr Hp Hn Hj))))).
Defined.

Lemma verdict_has_its_message_witness :
  let c0 : list Message * State := ([user_message "prompt"], ∅) in
  let c : list Message * State :=
    ([user_message "prompt"; assistant_message "HELLO"],
     <["status" := PyStr "invalid_action"]> ∅) in
  initial c0
  ∧ rtc (step backend_data json_loads_sample) c0 c
  ∧ (c.2 !! "status" = Some (PyStr "invalid_action") →
       ∃ m : Message,
         m ∈ c.1 ∧ m !! "role" = Some "assistant"
         ∧ Str.startswith (clean (get_content m)) "FINISH(" = false
         ∧ Str.startswith (clean (get_content m)) "GET" = false
         ∧ Str.startswith (clean (get_content m)) "POST" = false).
Proof.
  intros c0 c.
  assert (H0 : initial c0) by (split; reflexivity).
  assert (Hrtc : rtc (step backend_data json_loads_sample) c0 c).
  { eapply rtc_l; [apply (step_message _ _ _ _ (assistant_message "HELLO"))|].
    eapply rtc_l; [apply step_check|]. apply rtc_refl. }
  exact (conj H0 (conj Hrtc
           (proj2 (verdict_has_its_message backend_data json_loads_sample c0 c H0 Hrtc)))).
Defined.

Lemma conversation_monotone_witness :
  let c : list Message * State :=
    ([user_message "prompt"; assistant_message "HELLO"],
     <["status" := PyStr "invalid_action"]> ∅) in
  let c' : list Message * State :=
    ([user_message "prompt"; assistant_message "HELLO"; assistant_message "FINISH([1])"],
     <["status" := PyStr "invalid_action"]> ∅) in
  rtc (step backend_data json_loads_sample) c c'
  ∧ c.1 `prefix_of` c'.1
  ∧ (status_terminal c.2 = true → c'.2 = c.2).
Proof.
  intros c c'.
  assert (Hrtc : rtc (step backend_data json_loads_sample) c c').
  { eapply rtc_l; [apply (step_message _ _ _ _ (assistant_message "FINISH([1])"))|].
    eapply rtc_l; [apply step_check|]. apply rtc_refl. }
  exact (conj Hrtc (conversation_monotone backend_data json_loads_sample c c' Hrtc)).
Defined.

Lemma reward_zero_without_answer_witness :
  let state : State := <["status" := PyStr "invalid_action"]> ∅ in
  (state !! "status" ≠ Some (PyStr "completed") ∨ state !! "final_answer" = None)
  ∧ medagent_bench_reward_func refsol_sample verify_ok "http://fhir"
      [user_message "prompt"; assistant_message "HELLO"] {[ "id" := PyStr "task3_7" ]} state
    = Ok 0%Z.
Proof.
  intros state.
  assert (H : state !! "status" ≠ Some (PyStr "completed")
              ∨ state !! "final_answer" = None) by (right; reflexivity).
  exact (conj H (reward_zero_without_answer refsol_sample verify_ok "http://fhir" _ _ state H)).
Defined.

Lemma reward_zero_server_down_witness :
  let completion := [user_message "prompt"; assistant_message "FINISH([1, 2])"] in
  let state : State :=
    <["status" := PyStr "completed"]> (<["final_answer" := PyStr "[1, 2]"]> ∅) in
  let results :=
    mkResults [HistoryMessage_init "user" "prompt";
               HistoryMessage_init "agent" "FINISH([1, 2])"] (PyStr "[1, 2]") in
  state !! "status" = Some (PyStr "completed")
  ∧ state !! "final_answer" = Some (PyStr "[1, 2]")
  ∧ Results_init completion (PyStr "[1, 2]") = Ok results
  ∧ (verify_down "http://fhir" = Ok false ∨ ∃ e, verify_down "http://fhir" = Raise e)
  ∧ medagent_bench_reward_func refsol_sample verify_down "http://fhir" completion
      {[ "id" := PyStr "task3_7" ]} state = Ok 0%Z.
Proof.
  intros completion state results.
  assert (Hs : state !! "status" = Some (PyStr "completed")) by (vm_compute; reflexivity).
  assert (Hf : state !! "final_answer" = Some (PyStr "[1, 2]")) by (vm_compute; reflexivity).
  assert (Hres : Results_init completion (PyStr "[1, 2]") = Ok results)
    by (vm_compute; reflexivity).
  assert (Hv : verify_down "http://fhir" = Ok false ∨ ∃ e, verify_down "http://fhir" = Raise e)
    by (left; reflexivity).
  exact (conj Hs (conj Hf (conj Hres (conj Hv
           (reward_zero_server_down refsol_sample verify_down "http://fhir" completion
              _ state _ results Hs Hf Hres Hv))))).
Defined.

Lemma reward_raises_on_missing_content_witness :
  let bare : Message := <["role" := "user"]> ∅ in
  let completion := [bare; assistant_message "FINISH([1, 2])"] in
  let state : State :=
    <["status" := PyStr "completed"]> (<["final_answer" := PyStr "[1, 2]"]> ∅) in
  state !! "status" = Some (PyStr "completed")
  ∧ state !! "final_answer" = Some (PyStr "[1, 2]")
  ∧ ∃ e, medagent_bench_reward_func refsol_sample verify_ok "http://fhir" completion
           {[ "id" := PyStr "task3_7" ]} state = Raise e.
Proof.
  intros bare completion state.
  assert (Hs : state !! "status" = Some (PyStr "completed")) by (vm_compute; reflexivity).
  assert (Hf : state !! "final_answer" = Some (PyStr "[1, 2]")) by (vm_compute; reflexivity).
  refine (conj Hs (conj Hf _)).
  apply (proj1 (reward_raises_on_missing_content refsol_sample verify_ok "http://fhir"
                  completion {[ "id" := PyStr "task3_7" ]} state _ Hs Hf)).
  exists bare. split; [by left|]. split; [right|]; vm_compute; reflexivity.
Defined.

Lemma eval_truthy_iff_true_witness :
  let case_data : gmap string pyval := {[ "id" := PyStr "task4_7" ]} in
  let results := mkResults [HistoryMessage_init "user" "prompt"] (PyStr "[1, 2]") in
  eval refsol_sample "http://fhir" case_data results = Ok PyNone
  ∧ (truthy PyNone = true
     ↔ ∃ id grader_func,
         case_data !! "id" = Some (PyStr id)
         ∧ refsol_sample (before_first "_" id) = Some grader_func
         ∧ grader_func case_data results "http://fhir" = Ok (PyBool true)).
Proof.
  intros case_data results.
  assert (He : eval refsol_sample "http://fhir" case_data results = Ok PyNone)
    by (vm_compute; reflexivity).
  exact (conj He (eval_truthy_iff_true refsol_sample "http://fhir" case_data results _ He)).
Defined.

Lemma eval_raises_without_routine_witness :
  let case_data : gmap string pyval := {[ "id" := PyStr "task9_1" ]} in
  let results := mkResults [HistoryMessage_init "user" "prompt"] (PyStr "[1, 2]") in
  case_data !! "id" = Some (PyStr "task9_1")
  ∧ refsol_sample (before_first "_" "task9_1") = None
  ∧ eval refsol_sample "http://fhir" case_data results
    = Raise (AttributeError (before_first "_" "task9_1")).
Proof.
  intros case_data results.
  assert (Hid : case_data !! "id" = Some (PyStr "task9_1")) by (vm_compute; reflexivity).
  assert (Hr : refsol_sample (before_first "_" "task9_1") = None) by reflexivity.
  exact (conj Hid (conj Hr
           (proj1 (proj2 (eval_raises_without_routine refsol_sample "http://fhir"
                            case_data results)) "task9_1" Hid Hr))).
Defined.

Lemma task_id_of_id_witness :
  let case_data : gmap string pyval := {[ "id" := PyStr "task3_7" ]} in
  case_data !! "id" = Some (PyStr "task3_7")
  ∧ "task3_7" = "task3" +:+ "_" +:+ "7"
  ∧ Str.occurs "_" "task3" = false
  ∧ task_id_of case_data = Ok "task3".
Proof.
  intros case_data.
  assert (Hid : case_data !! "id" = Some (PyStr "task3_7")) by (vm_compute; reflexivity).
  assert (He : "task3_7" = "task3" +:+ "_" +:+ "7") by reflexivity.
  assert (Hn : Str.occurs "_" "task3" = false) by reflexivity.
  exact (conj Hid (conj He (conj Hn
           (proj1 (task_id_of_id case_data "task3_7" Hid) "task3" "7" He Hn)))).
Defined.

Lemma filter_then_dispatch_witness :
  let case_data : gmap string pyval := {[ "id" := PyStr "task3_7" ]} in
  filter_by_tasks ["task1"; "task3"] case_data = Ok true
  ∧ ∃ task, task ∈ ["task1"; "task3"] ∧ task_id_of case_data = Ok task.
Proof.
  intros case_data.
  assert (Hf : filter_by_tasks ["task1"; "task3"] case_data = Ok true)
    by (vm_compute; reflexivity).
  destruct (filter_then_dispatch ["task1"; "task3"] case_data Hf) as (task & Hin & Ht & _).
  exact (conj Hf (ex_intro _ task (conj Hin Ht))).
Defined.

Lemma prompt_leaves_conversation_open_witness :
  let prompt :=
    generate_prompt_messages json_dumps_sample
      {[ "instruction" := PyStr "What is the MRN?" ]} "http://fhir" ["GET /Patient"] in
  status_terminal (∅ : State) = false
  ∧ is_completed prompt ∅ = (false, ∅)
  ∧ env_response backend_data json_loads_sample prompt ∅ = EnvResult [] (Ok ([], ∅)).
Proof.
  intros prompt.
  assert (Hs : status_terminal (∅ : State) = false) by reflexivity.
  exact (conj Hs (prompt_leaves_conversation_open json_dumps_sample backend_data
                    json_loads_sample _ _ _ ∅ Hs)).
Defined.
